(** * SandboxShellTool: session-scoped command dispatcher

    Shallow embedding of [backend/agent/tools/sb_shell_tool.py].

    The Python class keeps a dictionary of session names, talks to a remote
    sandbox through four calls of [self.sandbox.process] and wraps what it
    gets into a [ToolResult].  The embedding is a state-and-exception monad
    over the instance attributes, the collaborator's own state, the entropy
    consumed by [uuid4], the text printed on standard output and a log of
    the collaborator calls that were made. *)

From Stdlib Require Import String Ascii List ZArith Bool Lia DecimalString.
Import ListNotations.
Local Open Scope string_scope.

Set Implicit Arguments.

(** ** Python strings *)

Module PyStr.

(** [s.lstrip(c)] for a one-character set. *)
Fixpoint lstrip (c : ascii) (s : string) : string :=
  match s with
  | EmptyString => EmptyString
  | String a r => if Ascii.eqb a c then lstrip c r else s
  end.

Definition is_empty (s : string) : bool :=
  match s with EmptyString => true | String _ _ => false end.

(** [s.rstrip(c)] for a one-character set. *)
Fixpoint rstrip (c : ascii) (s : string) : string :=
  match s with
  | EmptyString => EmptyString
  | String a r =>
      let r' := rstrip c r in
      if Ascii.eqb a c && is_empty r' then EmptyString else String a r'
  end.

(** [s.strip(c)]: both ends. *)
Definition strip (c : ascii) (s : string) : string := rstrip c (lstrip c s).

(** [c * n]. *)
Fixpoint replicate (n : nat) (c : ascii) : string :=
  match n with
  | O => EmptyString
  | S k => String c (replicate k c)
  end.

(** The truth value of a string in a condition: non-empty. *)
Definition truthy (s : string) : bool := negb (is_empty s).

(** [str(n)] for an [int]. *)
Definition of_int (n : Z) : string := NilZero.string_of_int (Z.to_int n).

Definition starts_with (c : ascii) (s : string) : bool :=
  match s with
  | EmptyString => false
  | String a _ => Ascii.eqb a c
  end.

Fixpoint ends_with (c : ascii) (s : string) : bool :=
  match s with
  | EmptyString => false
  | String a EmptyString => Ascii.eqb a c
  | String _ r => ends_with c r
  end.

(** Two adjacent occurrences of [c] somewhere in [s]. *)
Fixpoint doubled (c : ascii) (s : string) : bool :=
  match s with
  | EmptyString => false
  | String a r => (Ascii.eqb a c && starts_with c r) || doubled c r
  end.

(** [sub in s]. *)
Definition contains (sub s : string) : Prop :=
  exists pre post, s = pre ++ sub ++ post.

End PyStr.

(** ** Python dictionaries with string keys

    A [dict] iterates in insertion order, and [cleanup] walks the keys while
    calling a stateful collaborator, so the order is kept: the dictionary is
    the list of its items, oldest first. *)

Module PyDict.

Definition dict := list (string * string).

Fixpoint get (k : string) (d : dict) : option string :=
  match d with
  | [] => None
  | (k', v) :: r => if String.eqb k k' then Some v else get k r
  end.

(** [k in d]. *)
Definition mem (k : string) (d : dict) : bool :=
  match get k d with Some _ => true | None => false end.

(** [d[k] = v]: in place when the key is there, at the end otherwise. *)
Fixpoint set (k v : string) (d : dict) : dict :=
  match d with
  | [] => [(k, v)]
  | (k', v') :: r =>
      if String.eqb k k' then (k', v) :: r else (k', v') :: set k v r
  end.

(** [del d[k]] (only used on a key that is present). *)
Definition del (k : string) (d : dict) : dict :=
  filter (fun kv => negb (String.eqb k (fst kv))) d.

(** [list(d.keys())]. *)
Definition keys (d : dict) : list string := map fst d.

End PyDict.

(** ** Exceptions and results *)

(** A Python exception: the name of its class, whether it is an instance of
    [Exception], and the text [str(e)] gives.  [is_Exception] is false for
    the classes that derive from [BaseException] only, such as
    [KeyboardInterrupt] and [SystemExit]: an [except Exception] clause does
    not catch them. *)
Record exn := mk_exn {
  exn_type : string;
  is_Exception : bool;
  exn_str : string
}.

Definition RuntimeError (msg : string) : exn := mk_exn "RuntimeError" true msg.

(** [str(KeyError(k))] quotes the key. *)
Definition KeyError (k : string) : exn :=
  mk_exn "KeyError" true ("'" ++ k ++ "'").

(** [KeyboardInterrupt()], which derives from [BaseException] only. *)
Definition KeyboardInterrupt : exn := mk_exn "KeyboardInterrupt" false "".

Inductive outcome (A : Type) : Type :=
| Return (a : A)
| Raise (e : exn).

Arguments Return {A} a.
Arguments Raise {A} e.

Definition returned {A} (r : outcome A) : bool :=
  match r with Return _ => true | Raise _ => false end.

(** ** The collaborators *)

(** Modelled from the spec: [SessionExecuteRequest] of [sandbox.sandbox] is
    not part of the sources; the request carries the three keyword arguments
    [execute_command] builds it from. *)
Record SessionExecuteRequest := mk_req {
  command : string;
  var_async : bool;
  cwd : string
}.

(** Modelled from the spec: the response of a synchronous execution, "a
    command identifier and exit code". *)
Record SessionExecuteResponse := mk_resp {
  cmd_id : string;
  exit_code : Z
}.

(** Modelled from the spec: the sandbox runtime, "a black box satisfying
    exactly these four capabilities": create a named session, delete a
    session, execute a command synchronously within a session with a
    timeout, fetch the full log text of a command.  Each call may change the
    runtime's state [SB] and may raise. *)
Class Process (SB : Type) := {
  create_session : string -> SB -> outcome unit * SB;
  delete_session : string -> SB -> outcome unit * SB;
  execute_session_command :
    string -> SessionExecuteRequest -> Z -> SB ->
    outcome SessionExecuteResponse * SB;
  get_session_command_logs : string -> string -> SB -> outcome string * SB
}.

(** Modelled from the spec: the payload of the success variant,
    [{output, exit_code, cwd}]. *)
Record payload := mk_payload {
  p_output : string;
  p_exit_code : Z;
  p_cwd : string
}.

(** Modelled from the spec: the [ToolResult] envelope of [agentpress.tool],
    "a tagged result: success variant carries {output, exit_code, cwd};
    failure variant carries a human-readable message string". *)
Inductive ToolResult :=
| success_response (data : payload)
| fail_response (msg : string).

(** One entry of the call log: the collaborator call made and whether it
    returned. *)
Inductive Call :=
| CreateSession (session_id : string) (ok : bool)
| DeleteSession (session_id : string) (ok : bool)
| ExecuteSessionCommand
    (session_id : string) (req : SessionExecuteRequest) (timeout : Z)
    (ok : bool)
| GetSessionCommandLogs (session_id command_id : string) (ok : bool).

(** The sessions a call log shows as created: the creation calls that
    returned. *)
Definition is_created (c : Call) : bool :=
  match c with CreateSession _ ok => ok | _ => false end.

Definition created (log : list Call) : nat := length (filter is_created log).

(** ** The tool *)

Section Tool.

Context {SB : Type} {process : Process SB}.

(** The identifiers [uuid4] hands out, by draw. *)
Variable uuid4_at : nat -> string.

(** The instance attributes of [SandboxShellTool] and what surrounds it. *)
Record World := mk_world {
  _sessions : PyDict.dict;
  workspace_path : string;
  sandbox : SB;
  draws : nat;
  calls : list Call;
  stdout : list string
}.

(** [__init__]. *)
Definition init (sb : SB) : World :=
  mk_world [] "/workspace" sb 0 [] [].

Definition M (A : Type) : Type := World -> outcome A * World.

Definition ret {A} (a : A) : M A := fun w => (Return a, w).

Definition raise {A} (e : exn) : M A := fun w => (Raise e, w).

Definition bind {A B} (m : M A) (k : A -> M B) : M B :=
  fun w =>
    match m w with
    | (Return a, w') => k a w'
    | (Raise e, w') => (Raise e, w')
    end.

(** [try: m  except Exception as e: h e]: an exception that is not an
    instance of [Exception] is not caught. *)
Definition try_except {A} (m : M A) (h : exn -> M A) : M A :=
  fun w =>
    match m w with
    | (Return a, w') => (Return a, w')
    | (Raise e, w') => if is_Exception e then h e w' else (Raise e, w')
    end.

Notation "x <- m ;; k" := (bind m (fun x => k))
  (at level 61, m at next level, right associativity).
Notation "m ;;; k" := (bind m (fun _ => k))
  (at level 61, right associativity).

Definition get_sessions : M PyDict.dict := fun w => (Return (_sessions w), w).

Definition get_workspace_path : M string :=
  fun w => (Return (workspace_path w), w).

Definition put_sessions (d : PyDict.dict) (w : World) : World :=
  mk_world d (workspace_path w) (sandbox w) (draws w) (calls w) (stdout w).

(** [self._sessions[k]]. *)
Definition getitem (k : string) : M string :=
  fun w =>
    match PyDict.get k (_sessions w) with
    | Some v => (Return v, w)
    | None => (Raise (KeyError k), w)
    end.

(** [self._sessions[k] = v]. *)
Definition setitem (k v : string) : M unit :=
  fun w => (Return tt, put_sessions (PyDict.set k v (_sessions w)) w).

(** [del self._sessions[k]]. *)
Definition delitem (k : string) : M unit :=
  fun w =>
    if PyDict.mem k (_sessions w)
    then (Return tt, put_sessions (PyDict.del k (_sessions w)) w)
    else (Raise (KeyError k), w).

(** [str(uuid4())]. *)
Definition uuid4 : M string :=
  fun w =>
    (Return (uuid4_at (draws w)),
     mk_world (_sessions w) (workspace_path w) (sandbox w) (S (draws w))
              (calls w) (stdout w)).

Definition print (line : string) : M unit :=
  fun w =>
    (Return tt,
     mk_world (_sessions w) (workspace_path w) (sandbox w) (draws w)
              (calls w) (stdout w ++ [line])).

(** A call of [self.sandbox.process]: run it on the runtime's state and
    note it in the call log. *)
Definition invoke {A} (ev : bool -> Call) (op : SB -> outcome A * SB) : M A :=
  fun w =>
    let (r, sb) := op (sandbox w) in
    (r, mk_world (_sessions w) (workspace_path w) sb (draws w)
                 (calls w ++ [ev (returned r)]) (stdout w)).

(** [_ensure_session]. *)
Definition _ensure_session (session_name : string) : M string :=
  sessions <- get_sessions ;;
  (if negb (PyDict.mem session_name sessions) then
     session_id <- uuid4 ;;
     try_except
       (invoke (CreateSession session_id) (create_session session_id) ;;;
        setitem session_name session_id)
       (fun e => raise (RuntimeError ("Failed to create session: " ++ exn_str e)))
   else ret tt) ;;;
  getitem session_name.

(** [_cleanup_session]. *)
Definition _cleanup_session (session_name : string) : M unit :=
  sessions <- get_sessions ;;
  if PyDict.mem session_name sessions then
    try_except
      (session_id <- getitem session_name ;;
       invoke (DeleteSession session_id) (delete_session session_id) ;;;
       delitem session_name)
      (fun e =>
         print ("Warning: Failed to cleanup session " ++ session_name
                ++ ": " ++ exn_str e))
  else ret tt.

(** The working directory [execute_command] computes from [folder]. *)
Definition effective_cwd (root : string) (folder : option string) : string :=
  match folder with
  | Some f =>
      if PyStr.truthy f then root ++ "/" ++ PyStr.strip "/" f else root
  | None => root
  end.

(** The command text [execute_command] submits. *)
Definition prefixed (dir cmd : string) : string :=
  "cd " ++ dir ++ " && " ++ cmd.

(** The body of the [try] block of [execute_command]. *)
Definition execute_body
    (cmd : string) (folder : option string) (session_name : string)
    (timeout : Z) : M ToolResult :=
  session_id <- _ensure_session session_name ;;
  root <- get_workspace_path ;;
  let dir := effective_cwd root folder in
  let cmd' := prefixed dir cmd in
  let req := mk_req cmd' false dir in
  response <-
    invoke (ExecuteSessionCommand session_id req timeout)
           (execute_session_command session_id req timeout) ;;
  logs <-
    invoke (GetSessionCommandLogs session_id (cmd_id response))
           (get_session_command_logs session_id (cmd_id response)) ;;
  if Z.eqb (exit_code response) 0 then
    ret (success_response (mk_payload logs (exit_code response) dir))
  else
    let error_msg :=
      "Command failed with exit code " ++ PyStr.of_int (exit_code response) in
    let error_msg :=
      if PyStr.truthy logs then error_msg ++ ": " ++ logs else error_msg in
    ret (fail_response error_msg).

(** [execute_command]. *)
Definition execute_command
    (cmd : string) (folder : option string) (session_name : string)
    (timeout : Z) : M ToolResult :=
  try_except
    (execute_body cmd folder session_name timeout)
    (fun e => ret (fail_response ("Error executing command: " ++ exn_str e))).

Fixpoint for_each (l : list string) (body : string -> M unit) : M unit :=
  match l with
  | [] => ret tt
  | x :: r => body x ;;; for_each r body
  end.

(** [cleanup]: the loop runs over a snapshot of the keys. *)
Definition cleanup : M unit :=
  sessions <- get_sessions ;;
  for_each (PyDict.keys sessions) _cleanup_session.

(** A run of [_ensure_session] over a list of names, one call after the
    other; an exception of one call does not stop the caller from making
    the next. *)
Fixpoint ensure_all (names : list string) (w : World) : World :=
  match names with
  | [] => w
  | n :: r => ensure_all r (snd (_ensure_session n w))
  end.

End Tool.

Arguments World SB : clear implicits.
Arguments M SB A : clear implicits.

(** The line [_cleanup_session] prints when the remote deletion raises. *)
Definition warning (session_name : string) (e : exn) : string :=
  "Warning: Failed to cleanup session " ++ session_name ++ ": " ++ exn_str e.

(** What the [except] clause of [execute_command] makes of an exception. *)
Definition handled (e : exn) : outcome ToolResult :=
  if is_Exception e
  then Return (fail_response ("Error executing command: " ++ exn_str e))
  else Raise e.

(** A runtime whose deletion calls only raise instances of [Exception]. *)
Definition deletes_catchable {SB : Type} {process : Process SB} : Prop :=
  forall (id : string) (sb : SB) (e : exn),
    fst (delete_session id sb) = Raise e -> is_Exception e = true.

(** A runtime none of whose deletion calls raises. *)
Definition deletes_return {SB : Type} {process : Process SB} : Prop :=
  forall (id : string) (sb : SB), returned (fst (delete_session id sb)) = true.

(** ** Scripted collaborators

    A sandbox runtime whose four calls answer from a fixed script; its state
    is the list of the sessions that are live, oldest first. *)

Record script := mk_script {
  on_create : string -> outcome unit;
  on_delete : string -> outcome unit;
  on_execute :
    string -> SessionExecuteRequest -> Z -> outcome SessionExecuteResponse;
  on_logs : string -> string -> outcome string
}.

Definition drop_id (id : string) (live : list string) : list string :=
  filter (fun x => negb (String.eqb id x)) live.

#[local] Instance scripted (s : script) : Process (list string) := {
  create_session id live :=
    match on_create s id with
    | Return _ => (Return tt, (live ++ [id])%list)
    | Raise e => (Raise e, live)
    end;
  delete_session id live :=
    match on_delete s id with
    | Return _ => (Return tt, drop_id id live)
    | Raise e => (Raise e, live)
    end;
  execute_session_command id req timeout live :=
    (on_execute s id req timeout, live);
  get_session_command_logs id cid live := (on_logs s id cid, live)
}.

Definition unreachable : exn :=
  mk_exn "ConnectionError" true "sandbox unreachable".

(** Every call returns; the command ends with the given exit code and log. *)
Definition answering (code : Z) (logs : string) : script :=
  mk_script (fun _ => Return tt) (fun _ => Return tt)
            (fun _ _ _ => Return (mk_resp "cmd-1" code))
            (fun _ _ => Return logs).

(** No session can be created. *)
Definition no_create : script :=
  mk_script (fun _ => Raise unreachable) (fun _ => Return tt)
            (fun _ _ _ => Return (mk_resp "cmd-1" 0))
            (fun _ _ => Return "").

(** No session can be deleted. *)
Definition no_delete : script :=
  mk_script (fun _ => Return tt) (fun _ => Raise unreachable)
            (fun _ _ _ => Return (mk_resp "cmd-1" 0))
            (fun _ _ => Return "").

(** Submitting a command fails. *)
Definition no_execute : script :=
  mk_script (fun _ => Return tt) (fun _ => Return tt)
            (fun _ _ _ => Raise unreachable)
            (fun _ _ => Return "").

(** Identifiers of the examples: [id-0], [id-1], ... *)
Definition ids (n : nat) : string := "id-" ++ PyStr.of_int (Z.of_nat n).

(** The session [id-0] cannot be created, the others can. *)
Definition flaky_create : script :=
  mk_script (fun id => if String.eqb id "id-0" then Raise unreachable else Return tt)
            (fun _ => Return tt)
            (fun _ _ _ => Return (mk_resp "cmd-1" 0))
            (fun _ _ => Return "").

(** Submitting a command is interrupted from the keyboard. *)
Definition interrupted_execute : script :=
  mk_script (fun _ => Return tt) (fun _ => Return tt)
            (fun _ _ _ => Raise KeyboardInterrupt)
            (fun _ _ => Return "").

(** Deleting a session is interrupted from the keyboard. *)
Definition interrupted_delete : script :=
  mk_script (fun _ => Return tt) (fun _ => Raise KeyboardInterrupt)
            (fun _ _ _ => Return (mk_resp "cmd-1" 0))
            (fun _ _ => Return "").

(** An instance that has used the sessions [s1] and [s2] before. *)
Definition with_s1_s2 : World (list string) :=
  mk_world [("s1", "id-0"); ("s2", "id-1")] "/workspace" ["id-0"; "id-1"] 2
           [CreateSession "id-0" true; CreateSession "id-1" true] [].

(** Identifiers that are told apart by their length. *)
Definition tally (n : nat) : string := PyStr.replicate n "u".

(** An instance that has used the session [s1] before. *)
Definition with_s1 : World (list string) :=
  mk_world [("s1", "id-0")] "/workspace" ["id-0"] 1 [CreateSession "id-0" true] [].

(** ** Call logs and runs of requests *)

(** The sessions a call log shows as deleted: the deletion calls that
    returned. *)
Definition is_deleted (c : Call) : bool :=
  match c with DeleteSession _ ok => ok | _ => false end.

Definition deleted (log : list Call) : nat := length (filter is_deleted log).

Definition is_delete_call (c : Call) : bool :=
  match c with DeleteSession _ _ => true | _ => false end.

(** The calls about a command: its submission and the retrieval of its
    log. *)
Definition is_command_call (c : Call) : bool :=
  match c with
  | ExecuteSessionCommand _ _ _ _ | GetSessionCommandLogs _ _ _ => true
  | _ => false
  end.

(** Whether the call returned. *)
Definition call_returned (c : Call) : bool :=
  match c with
  | CreateSession _ ok | DeleteSession _ ok
  | ExecuteSessionCommand _ _ _ ok | GetSessionCommandLogs _ _ ok => ok
  end.

(** The session a call is about. *)
Definition call_session (c : Call) : string :=
  match c with
  | CreateSession s _ | DeleteSession s _
  | ExecuteSessionCommand s _ _ _ | GetSessionCommandLogs s _ _ => s
  end.

(** What a user of the tool can call: [execute_command] and [cleanup]. *)
Inductive request :=
| ExecuteCommand
    (cmd : string) (folder : option string) (session_name : string)
    (timeout : Z)
| CleanupAll.

Section Requests.

Context {SB : Type} {process : Process SB}.
Variable uuid4_at : nat -> string.

Definition run_request (r : request) (w : World SB) : World SB :=
  match r with
  | ExecuteCommand c f n t => snd (execute_command uuid4_at c f n t w)
  | CleanupAll => snd (cleanup w)
  end.

(** The calls of a list, one after the other on the same instance. *)
Fixpoint run_requests (rs : list request) (w : World SB) : World SB :=
  match rs with
  | [] => w
  | r :: rest => run_requests rest (run_request r w)
  end.

(** No name is registered twice, and the sessions the collaborator created
    are the registered ones and the deleted ones. *)
Definition accounted (w : World SB) : Prop :=
  NoDup (PyDict.keys (_sessions w))
  /\ created (calls w) = length (_sessions w) + deleted (calls w).

(** Every registered identifier is one [uuid4] has handed out, and no two
    names share one. *)
Definition ids_drawn (w : World SB) : Prop :=
  (forall k v, In (k, v) (_sessions w) -> exists i, i < draws w /\ v = uuid4_at i)
  /\ NoDup (map snd (_sessions w)).

End Requests.

(** * Properties *)

(** ** Strings *)

Module PyStrFacts.
Import PyStr.

Lemma append_nil_r (s : string) : s ++ "" = s.
Proof. induction s as [|a s IH]; simpl; [reflexivity | now rewrite IH]. Qed.

Lemma append_assoc (s t u : string) : (s ++ t) ++ u = s ++ t ++ u.
Proof. induction s as [|a s IH]; simpl; [reflexivity | now rewrite IH]. Qed.

Lemma truthy_true (s : string) : s <> "" -> truthy s = true.
Proof. destruct s; simpl; [congruence | reflexivity]. Qed.

(** What [lstrip] removes is a run of the character, and what is left does
    not start with it. *)
Lemma lstrip_spec (c : ascii) (s : string) :
  exists n, s = replicate n c ++ lstrip c s
            /\ starts_with c (lstrip c s) = false.
Proof.
  induction s as [|a s [n [E F]]]; simpl.
  - exists 0; split; reflexivity.
  - destruct (Ascii.eqb_spec a c) as [->|N].
    + exists (S n); simpl; split; [now rewrite <- E | exact F].
    + exists 0; simpl; split; [reflexivity|].
      now apply Ascii.eqb_neq.
Qed.

(** What [rstrip] removes is a run of the character, and what is left does
    not end with it. *)
Lemma rstrip_spec (c : ascii) (s : string) :
  exists m, s = rstrip c s ++ replicate m c
            /\ ends_with c (rstrip c s) = false.
Proof.
  induction s as [|a s [m [E F]]]; simpl.
  - exists 0; split; reflexivity.
  - destruct (Ascii.eqb_spec a c) as [->|N]; simpl.
    + destruct (rstrip c s) as [|b t] eqn:R; simpl.
      * exists (S m); simpl in *; split; [now rewrite <- E | reflexivity].
      * exists m; simpl in *; split; [now rewrite <- E | exact F].
    + exists m; split; [now rewrite <- E|].
      destruct (rstrip c s) as [|b t] eqn:R; simpl in *;
        [now apply Ascii.eqb_neq | exact F].
Qed.

Lemma rstrip_keeps_start (c : ascii) (s : string) :
  starts_with c s = false -> starts_with c (rstrip c s) = false.
Proof.
  destruct s as [|a s]; simpl; [reflexivity|].
  intros H; rewrite H; simpl; exact H.
Qed.

(** [strip] takes a run of the character off each end and nothing else. *)
Lemma strip_spec (c : ascii) (s : string) :
  exists n m,
    s = replicate n c ++ strip c s ++ replicate m c
    /\ starts_with c (strip c s) = false
    /\ ends_with c (strip c s) = false.
Proof.
  unfold strip.
  destruct (lstrip_spec c s) as [n [E F]].
  destruct (rstrip_spec c (lstrip c s)) as [m [E' F']].
  exists n, m; repeat split.
  - now rewrite <- E'.
  - now apply rstrip_keeps_start.
  - exact F'.
Qed.

Lemma doubled_join (c : ascii) (root s : string) :
  doubled c root = false -> ends_with c root = false ->
  starts_with c s = false ->
  doubled c (root ++ String c s) = doubled c s.
Proof.
  intros D E S.
  induction root as [|a r IH]; simpl in *.
  - now rewrite S, andb_false_r.
  - apply orb_false_iff in D as [D1 D2].
    destruct r as [|b r']; simpl in *.
    + now rewrite E, S, andb_false_r.
    + rewrite D1. simpl. apply IH; assumption.
Qed.

Lemma contains_here (sub post : string) : contains sub (sub ++ post).
Proof. exists "", post; reflexivity. Qed.

Lemma contains_after (pre sub s : string) :
  contains sub s -> contains sub (pre ++ s).
Proof.
  intros [p [q ->]]. exists (pre ++ p), q. now rewrite append_assoc.
Qed.

Lemma contains_end (pre sub : string) : contains sub (pre ++ sub).
Proof.
  apply contains_after. exists "", ""; simpl. now rewrite append_nil_r.
Qed.

End PyStrFacts.

(** ** Dictionaries *)

Module PyDictFacts.
Import PyDict.

Lemma mem_get (k : string) (d : dict) :
  mem k d = match get k d with Some _ => true | None => false end.
Proof. reflexivity. Qed.

Lemma set_absent (k v : string) (d : dict) :
  get k d = None -> set k v d = (d ++ [(k, v)])%list.
Proof.
  induction d as [|[k' v'] d IH]; simpl; [reflexivity|].
  destruct (String.eqb k k'); [discriminate|].
  intros H; now rewrite IH.
Qed.

Lemma get_set_same (k v : string) (d : dict) : get k (set k v d) = Some v.
Proof.
  induction d as [|[k' v'] d IH]; simpl.
  - now rewrite String.eqb_refl.
  - destruct (String.eqb k k') eqn:E; simpl; rewrite E; [reflexivity | exact IH].
Qed.

Lemma get_snoc_other (n k v : string) (d : dict) :
  n <> k -> get n (d ++ [(k, v)])%list = get n d.
Proof.
  intros N. induction d as [|[k' v'] d IH]; simpl.
  - apply String.eqb_neq in N. now rewrite N.
  - destruct (String.eqb n k'); [reflexivity | exact IH].
Qed.

Lemma get_del_same (k : string) (d : dict) : get k (del k d) = None.
Proof.
  unfold del. induction d as [|[k' v'] d IH]; simpl; [reflexivity|].
  destruct (String.eqb k k') eqn:E; simpl; [exact IH|].
  now rewrite E.
Qed.

Lemma get_del_other (n k : string) (d : dict) :
  n <> k -> get n (del k d) = get n d.
Proof.
  intros N. unfold del. induction d as [|[k' v'] d IH]; simpl; [reflexivity|].
  destruct (String.eqb_spec k k') as [<-|K]; simpl.
  - apply String.eqb_neq in N. now rewrite N.
  - now rewrite IH.
Qed.

(** Deleting only ever takes entries away. *)
Lemma get_del_some (n k v : string) (d : dict) :
  get n (del k d) = Some v -> get n d = Some v.
Proof.
  destruct (String.eqb_spec n k) as [->|N].
  - now rewrite get_del_same.
  - now rewrite get_del_other.
Qed.

Lemma get_in_keys (n v : string) (d : dict) :
  get n d = Some v -> In n (keys d).
Proof.
  induction d as [|[k' v'] d IH]; simpl; [discriminate|].
  destruct (String.eqb_spec n k') as [->|N]; [now left | right; auto].
Qed.

Lemma not_in_keys (n : string) (d : dict) :
  get n d = None -> ~ In n (keys d).
Proof.
  induction d as [|[k' v'] d IH]; simpl; [tauto|].
  destruct (String.eqb_spec n k') as [->|N]; [discriminate|].
  intros H [E|I]; [congruence | now apply IH].
Qed.

Lemma keys_snoc (k v : string) (d : dict) :
  keys (d ++ [(k, v)])%list = (keys d ++ [k])%list.
Proof. unfold keys. now rewrite map_app. Qed.

(** A dictionary none of whose keys can be looked up has no key. *)
Lemma no_key_empty (d : dict) : (forall n, get n d = None) -> d = [].
Proof.
  destruct d as [|[k v] d]; [reflexivity|].
  intros H. specialize (H k). simpl in H.
  now rewrite String.eqb_refl in H.
Qed.

End PyDictFacts.

(** ** Resolving a session *)

Section EnsureSession.

Context {SB : Type} {process : Process SB}.
Variable uuid4_at : nat -> string.

(** A name that is registered: nothing is called, nothing changes. *)
Lemma ensure_present (name id : string) (w : World SB) :
  PyDict.get name (_sessions w) = Some id ->
  _ensure_session uuid4_at name w = (Return id, w).
Proof.
  intros H.
  unfold _ensure_session, bind, get_sessions, getitem, ret.
  rewrite PyDictFacts.mem_get, H; simpl.
  now rewrite H.
Qed.

(** A new name and a creation call that returns. *)
Lemma ensure_absent_ok (name : string) (w : World SB) (u : unit) (sb' : SB) :
  PyDict.get name (_sessions w) = None ->
  create_session (uuid4_at (draws w)) (sandbox w) = (Return u, sb') ->
  _ensure_session uuid4_at name w =
    (Return (uuid4_at (draws w)),
     mk_world (_sessions w ++ [(name, uuid4_at (draws w))])%list
              (workspace_path w) sb' (S (draws w))
              (calls w ++ [CreateSession (uuid4_at (draws w)) true])%list
              (stdout w)).
Proof.
  intros H C.
  unfold _ensure_session, bind, get_sessions, getitem, ret, uuid4,
    try_except, invoke, setitem, put_sessions.
  rewrite PyDictFacts.mem_get, H; simpl.
  rewrite C; simpl.
  rewrite PyDictFacts.get_set_same.
  now rewrite (PyDictFacts.set_absent _ _ _ H).
Qed.

(** A new name and a creation call that raises: an instance of [Exception]
    is wrapped, any other exception goes through as it is. *)
Lemma ensure_absent_raise (name : string) (w : World SB) (e : exn) (sb' : SB) :
  PyDict.get name (_sessions w) = None ->
  create_session (uuid4_at (draws w)) (sandbox w) = (Raise e, sb') ->
  _ensure_session uuid4_at name w =
    (Raise (if is_Exception e
            then RuntimeError ("Failed to create session: " ++ exn_str e)
            else e),
     mk_world (_sessions w) (workspace_path w) sb' (S (draws w))
              (calls w ++ [CreateSession (uuid4_at (draws w)) false])%list
              (stdout w)).
Proof.
  intros H C.
  unfold _ensure_session, bind, get_sessions, getitem, ret, uuid4,
    try_except, invoke, setitem, put_sessions, raise.
  rewrite PyDictFacts.mem_get, H; simpl.
  rewrite C. now destruct (is_Exception e).
Qed.

(** What one call can do to the registry, the call log and the workspace
    root, in one statement for the three cases. *)
Lemma ensure_step (name : string) (w : World SB) :
  let w' := snd (_ensure_session uuid4_at name w) in
  workspace_path w' = workspace_path w
  /\ ((_sessions w' = _sessions w /\ created (calls w') = created (calls w))
      \/ (PyDict.get name (_sessions w) = None
          /\ _sessions w' = (_sessions w ++ [(name, uuid4_at (draws w))])%list
          /\ created (calls w') = S (created (calls w)))).
Proof.
  destruct (PyDict.get name (_sessions w)) as [id|] eqn:G.
  - rewrite (ensure_present _ _ G); simpl. split; [reflexivity | now left].
  - destruct (create_session (uuid4_at (draws w)) (sandbox w)) as [[u|e] sb'] eqn:C.
    + rewrite (ensure_absent_ok _ _ G C); simpl. split; [reflexivity | right].
      repeat split. unfold created. rewrite filter_app, length_app; simpl. lia.
    + rewrite (ensure_absent_raise _ _ G C); simpl. split; [reflexivity | left].
      split; [reflexivity|].
      unfold created. rewrite filter_app, length_app; simpl. lia.
Qed.

(** A registered name stays registered, under the same identifier. *)
Lemma ensure_keeps (name other id : string) (w : World SB) :
  PyDict.get name (_sessions w) = Some id ->
  PyDict.get name (_sessions (snd (_ensure_session uuid4_at other w))) = Some id.
Proof.
  intros G.
  destruct (ensure_step other w) as [_ [[E _]|[A [E _]]]]; rewrite E.
  - exact G.
  - rewrite PyDictFacts.get_snoc_other; [exact G|].
    intros ->. congruence.
Qed.

Lemma ensure_all_keeps (others : list string) (name id : string) (w : World SB) :
  PyDict.get name (_sessions w) = Some id ->
  PyDict.get name (_sessions (ensure_all uuid4_at others w)) = Some id.
Proof.
  revert w. induction others as [|o r IH]; intros w G; simpl; [exact G|].
  apply IH. now apply ensure_keeps.
Qed.

(** Over a run of calls every creation that returned has put exactly one
    entry in the registry, and no name is registered twice. *)
Lemma ensure_all_count (names : list string) (w : World SB) :
  let w' := ensure_all uuid4_at names w in
  created (calls w') + length (_sessions w)
    = created (calls w) + length (_sessions w')
  /\ (NoDup (PyDict.keys (_sessions w)) -> NoDup (PyDict.keys (_sessions w'))).
Proof.
  revert w. induction names as [|n r IH]; intros w; simpl; [split; auto|].
  destruct (IH (snd (_ensure_session uuid4_at n w))) as [C D].
  destruct (ensure_step n w) as [_ [[E K]|[A [E K]]]];
    rewrite E, K in *; simpl in *.
  - split; [exact C | exact D].
  - rewrite length_app in C; simpl in C. split; [lia|].
    intros N. apply D. rewrite PyDictFacts.keys_snoc.
    apply NoDup_app; [exact N | constructor; [simpl; tauto | constructor] |].
    intros x I [<-|[]]. now apply (PyDictFacts.not_in_keys _ _ A).
Qed.

End EnsureSession.

(** ** Cleaning up *)

Section Cleanup.

Context {SB : Type} {process : Process SB}.

Lemma cleanup_absent (name : string) (w : World SB) :
  PyDict.get name (_sessions w) = None ->
  _cleanup_session name w = (Return tt, w).
Proof.
  intros H. unfold _cleanup_session, bind, get_sessions, ret.
  now rewrite PyDictFacts.mem_get, H.
Qed.

(** The remote deletion returns: the entry goes. *)
Lemma cleanup_present_ok (name id : string) (w : World SB) (u : unit) (sb' : SB) :
  PyDict.get name (_sessions w) = Some id ->
  delete_session id (sandbox w) = (Return u, sb') ->
  _cleanup_session name w =
    (Return tt,
     mk_world (PyDict.del name (_sessions w)) (workspace_path w) sb'
              (draws w) (calls w ++ [DeleteSession id true])%list (stdout w)).
Proof.
  intros H D.
  unfold _cleanup_session, bind, get_sessions, getitem, try_except, invoke,
    delitem, put_sessions.
  rewrite PyDictFacts.mem_get, H; simpl.
  rewrite H, D; simpl.
  now rewrite PyDictFacts.mem_get, H.
Qed.

(** The remote deletion raises: [del] is skipped; the handler prints when
    the exception is an instance of [Exception], otherwise the exception
    goes through. *)
Lemma cleanup_present_raise (name id : string) (w : World SB) (e : exn) (sb' : SB) :
  PyDict.get name (_sessions w) = Some id ->
  delete_session id (sandbox w) = (Raise e, sb') ->
  _cleanup_session name w =
    (if is_Exception e then Return tt else Raise e,
     mk_world (_sessions w) (workspace_path w) sb' (draws w)
              (calls w ++ [DeleteSession id false])%list
              (if is_Exception e
               then (stdout w ++ [warning name e])%list
               else stdout w)).
Proof.
  intros H D.
  unfold _cleanup_session, bind, get_sessions, getitem, try_except, invoke,
    delitem, put_sessions, print, warning.
  rewrite PyDictFacts.mem_get, H; simpl.
  rewrite H, D. now destruct (is_Exception e).
Qed.

Lemma deletes_return_catchable : deletes_return -> deletes_catchable.
Proof.
  intros R id sb e H. specialize (R id sb). rewrite H in R. discriminate.
Qed.

(** One call: an entry that is there afterwards was there before, and if it
    is the entry of [name] its remote deletion raised; the call returns
    unless the deletion raised something that is not an [Exception]. *)
Lemma cleanup_step (name : string) (w : World SB) :
  exists r w' log,
    _cleanup_session name w = (r, w')
    /\ calls w' = (calls w ++ log)%list
    /\ (forall n id,
          PyDict.get n (_sessions w') = Some id ->
          PyDict.get n (_sessions w) = Some id
          /\ (n = name -> In (DeleteSession id false) log))
    /\ (deletes_catchable -> r = Return tt)
    /\ (deletes_return -> PyDict.get name (_sessions w') = None).
Proof.
  destruct (PyDict.get name (_sessions w)) as [sid|] eqn:G.
  - destruct (delete_session sid (sandbox w)) as [[u|e] sb'] eqn:D.
    + rewrite (cleanup_present_ok _ _ G D).
      eexists; eexists; exists [DeleteSession sid true].
      split; [reflexivity|]; simpl.
      repeat split.
      * eapply PyDictFacts.get_del_some; eassumption.
      * intros ->. now rewrite PyDictFacts.get_del_same in H.
      * intros _. apply PyDictFacts.get_del_same.
    + rewrite (cleanup_present_raise _ _ G D).
      eexists; eexists; exists [DeleteSession sid false].
      split; [reflexivity|]; simpl.
      repeat split.
      * assumption.
      * intros ->. left. congruence.
      * intros A. specialize (A sid (sandbox w) e). rewrite D in A.
        now rewrite A.
      * intros A. specialize (A sid (sandbox w)). now rewrite D in A.
  - exists (Return tt), w, []. rewrite (cleanup_absent _ _ G), app_nil_r.
    repeat split; try assumption; [|intros _; exact G].
    intros ->. congruence.
Qed.

(** The loop of [cleanup], over any list of names: it stops at the first
    call that raises. *)
Lemma cleanup_loop (names : list string) (w : World SB) :
  exists r w' log,
    for_each names _cleanup_session w = (r, w')
    /\ calls w' = (calls w ++ log)%list
    /\ (forall n id,
          PyDict.get n (_sessions w') = Some id ->
          PyDict.get n (_sessions w) = Some id
          /\ (r = Return tt -> In n names -> In (DeleteSession id false) log))
    /\ (deletes_catchable -> r = Return tt)
    /\ (deletes_return ->
        forall n, In n names -> PyDict.get n (_sessions w') = None).
Proof.
  revert w. induction names as [|x r IH]; intros w; simpl.
  - exists (Return tt), w, []. rewrite app_nil_r. repeat split; tauto.
  - destruct (cleanup_step x w) as (r1 & w1 & log1 & E1 & C1 & K1 & T1 & A1).
    unfold bind. rewrite E1.
    destruct r1 as [[]|e1].
    + destruct (IH w1) as (r2 & w' & log2 & E2 & C2 & K2 & T2 & A2).
      exists r2, w', (log1 ++ log2)%list.
      rewrite E2, C2, C1, app_assoc.
      split; [reflexivity | split; [reflexivity | split; [|split]]].
      * intros n id G.
        destruct (K2 n id G) as [G1 I2].
        destruct (K1 n id G1) as [G0 I1].
        split; [exact G0|].
        intros R [<-|I]; apply in_or_app; [left | right]; auto.
      * exact T2.
      * intros A n [<-|I]; [|now apply A2].
        destruct (PyDict.get x (_sessions w')) as [id|] eqn:G; [|reflexivity].
        destruct (K2 x id G) as [G1 _].
        rewrite (A1 A) in G1. discriminate.
    + exists (Raise e1), w1, log1.
      split; [reflexivity | split; [exact C1 | split; [|split]]].
      * intros n id G. split; [now apply (K1 n id G) | discriminate].
      * intros A. specialize (T1 A). discriminate.
      * intros A. specialize (T1 (deletes_return_catchable A)). discriminate.
Qed.

End Cleanup.

(** ** Executing a command *)

Section Execute.

Context {SB : Type} {process : Process SB}.
Variable uuid4_at : nat -> string.

(** [execute_command] step by step: an exception raised on the way goes to
    the [except] clause. *)
Lemma execute_command_run
    (cmd : string) (folder : option string) (name : string) (timeout : Z)
    (w : World SB) :
  execute_command uuid4_at cmd folder name timeout w =
    match _ensure_session uuid4_at name w with
    | (Raise e, w1) => (handled e, w1)
    | (Return sid, w1) =>
        let dir := effective_cwd (workspace_path w1) folder in
        let req := mk_req ("cd " ++ dir ++ " && " ++ cmd) false dir in
        let world sb log :=
          mk_world (_sessions w1) (workspace_path w1) sb (draws w1)
                   (calls w1 ++ log)%list (stdout w1) in
        match execute_session_command sid req timeout (sandbox w1) with
        | (Raise e, sb2) =>
            (handled e,
             world sb2 [ExecuteSessionCommand sid req timeout false])
        | (Return resp, sb2) =>
            let sent := ExecuteSessionCommand sid req timeout true in
            match get_session_command_logs sid (cmd_id resp) sb2 with
            | (Raise e, sb3) =>
                (handled e,
                 world sb3
                   [sent; GetSessionCommandLogs sid (cmd_id resp) false])
            | (Return logs, sb3) =>
                (Return
                   (if Z.eqb (exit_code resp) 0 then
                      success_response
                        (mk_payload logs (exit_code resp) dir)
                    else
                      fail_response
                        ("Command failed with exit code "
                         ++ PyStr.of_int (exit_code resp)
                         ++ (if PyStr.truthy logs then ": " ++ logs else ""))),
                 world sb3
                   [sent; GetSessionCommandLogs sid (cmd_id resp) true])
            end
        end
    end.
Proof.
  unfold execute_command, execute_body, try_except, bind at 1, handled.
  destruct (_ensure_session uuid4_at name w) as [[sid|e] w1];
    [|now destruct (is_Exception e)].
  unfold bind, get_workspace_path, invoke, prefixed, ret; simpl.
  destruct (execute_session_command _ _ _ _) as [[resp|e] sb2]; simpl;
    [|now destruct (is_Exception e)].
  destruct (get_session_command_logs _ _ _) as [[logs|e] sb3]; simpl.
  - rewrite <- app_assoc; simpl.
    destruct (Z.eqb (exit_code resp) 0); [reflexivity|].
    destruct (PyStr.truthy logs); simpl.
    + reflexivity.
    + now rewrite PyStrFacts.append_nil_r.
  - rewrite <- app_assoc. now destruct (is_Exception e).
Qed.

End Execute.

(** ** The specification, claim by claim *)

Section Claims.

Context {SB : Type} {process : Process SB}.
Variable uuid4_at : nat -> string.

(** C1 (amended).  [execute_command] lets no exception that is an instance
    of [Exception] get past it: whatever it raises is not one.  An
    [Exception] raised while the command is submitted or while its log is
    fetched becomes a failure envelope whose message is ["Error executing
    command: "] followed by the exception's text, and so does one that
    [_ensure_session] raises, because the call of [_ensure_session] sits
    inside the same [try] block.  When nothing is raised an envelope is
    returned. *)
Theorem execute_command_catches_exceptions
    (cmd : string) (folder : option string) (name : string) (timeout : Z)
    (w : World SB) :
  (forall e w',
     execute_command uuid4_at cmd folder name timeout w = (Raise e, w') ->
     is_Exception e = false)
  /\ match _ensure_session uuid4_at name w with
     | (Raise e, _) =>
         is_Exception e = true ->
         fst (execute_command uuid4_at cmd folder name timeout w)
         = Return (fail_response ("Error executing command: " ++ exn_str e))
     | (Return sid, w1) =>
         let dir := effective_cwd (workspace_path w1) folder in
         let req := mk_req ("cd " ++ dir ++ " && " ++ cmd) false dir in
         match execute_session_command sid req timeout (sandbox w1) with
         | (Raise e, _) =>
             is_Exception e = true ->
             fst (execute_command uuid4_at cmd folder name timeout w)
             = Return
                 (fail_response ("Error executing command: " ++ exn_str e))
         | (Return resp, sb2) =>
             match get_session_command_logs sid (cmd_id resp) sb2 with
             | (Raise e, _) =>
                 is_Exception e = true ->
                 fst (execute_command uuid4_at cmd folder name timeout w)
                 = Return
                     (fail_response
                        ("Error executing command: " ++ exn_str e))
             | (Return _, _) =>
                 exists r,
                   fst (execute_command uuid4_at cmd folder name timeout w)
                   = Return r
             end
         end
     end.
Proof.
  assert (H : forall (e e' : exn) (x y : World SB),
             (handled e, x) = (Raise e', y) -> is_Exception e' = false).
  { intros e e' x y. unfold handled.
    destruct (is_Exception e) eqn:B; intros Q; inversion Q; subst; exact B. }
  rewrite execute_command_run.
  destruct (_ensure_session uuid4_at name w) as [[sid|e] w1].
  - cbv zeta.
    destruct (execute_session_command _ _ _ _) as [[resp|e] sb2].
    + destruct (get_session_command_logs _ _ _) as [[logs|e] sb3].
      * split; [discriminate | eexists; reflexivity].
      * split; [intros e0 w0 Q; exact (H _ _ _ _ Q)|].
    unfold handled; simpl. now intros ->.
    + split; [intros e0 w0 Q; exact (H _ _ _ _ Q)|].
    unfold handled; simpl. now intros ->.
  - split; [intros e0 w0 Q; exact (H _ _ _ _ Q)|].
    unfold handled; simpl. now intros ->.
Qed.

(** C2.  When the session is resolved, the submitted command reports exit
    code 0 and its log is fetched, [execute_command] returns the success
    envelope whose output is that log, whose exit code is 0 and whose
    working directory is the one computed from the folder. *)
Theorem execute_success_envelope
    (cmd : string) (folder : option string) (name : string) (timeout : Z)
    (w w1 : World SB) (sid : string) (resp : SessionExecuteResponse)
    (logs : string) (sb2 sb3 : SB) :
  _ensure_session uuid4_at name w = (Return sid, w1) ->
  execute_session_command sid
    (mk_req ("cd " ++ effective_cwd (workspace_path w) folder ++ " && " ++ cmd)
            false (effective_cwd (workspace_path w) folder))
    timeout (sandbox w1) = (Return resp, sb2) ->
  get_session_command_logs sid (cmd_id resp) sb2 = (Return logs, sb3) ->
  exit_code resp = 0%Z ->
  exists w',
    execute_command uuid4_at cmd folder name timeout w =
      (Return
         (success_response
            (mk_payload logs 0 (effective_cwd (workspace_path w) folder))),
       w').
Proof.
  intros E X L Z0.
  assert (P : workspace_path w1 = workspace_path w)
    by (pose proof (ensure_step uuid4_at name w) as S; rewrite E in S; apply S).
  rewrite execute_command_run, E; cbv zeta.
  rewrite P, X, L, Z0; simpl.
  eexists; reflexivity.
Qed.

(** C3.  When the session is resolved, the submitted command reports an
    exit code other than 0 and its log is fetched, [execute_command]
    returns a failure envelope: its message is ["Command failed with exit
    code "] and the code, followed by [": "] and the log when the log is
    not empty.  So the message contains the exit code, contains the log
    when there is one, and is the exit code sentence alone otherwise. *)
Theorem execute_failure_envelope
    (cmd : string) (folder : option string) (name : string) (timeout : Z)
    (w w1 : World SB) (sid : string) (resp : SessionExecuteResponse)
    (logs : string) (sb2 sb3 : SB) :
  _ensure_session uuid4_at name w = (Return sid, w1) ->
  execute_session_command sid
    (mk_req ("cd " ++ effective_cwd (workspace_path w) folder ++ " && " ++ cmd)
            false (effective_cwd (workspace_path w) folder))
    timeout (sandbox w1) = (Return resp, sb2) ->
  get_session_command_logs sid (cmd_id resp) sb2 = (Return logs, sb3) ->
  exit_code resp <> 0%Z ->
  exists msg w',
    execute_command uuid4_at cmd folder name timeout w
      = (Return (fail_response msg), w')
    /\ PyStr.contains (PyStr.of_int (exit_code resp)) msg
    /\ (logs <> "" ->
        msg = "Command failed with exit code "
              ++ PyStr.of_int (exit_code resp) ++ ": " ++ logs
        /\ PyStr.contains logs msg)
    /\ (logs = "" ->
        msg = "Command failed with exit code "
              ++ PyStr.of_int (exit_code resp)).
Proof.
  intros E X L NZ.
  assert (P : workspace_path w1 = workspace_path w)
    by (pose proof (ensure_step uuid4_at name w) as S; rewrite E in S; apply S).
  apply Z.eqb_neq in NZ.
  rewrite execute_command_run, E; cbv zeta.
  rewrite P, X, L, NZ.
  eexists; eexists; split; [reflexivity|].
  split; [|split].
  - apply PyStrFacts.contains_after, PyStrFacts.contains_here.
  - intros N. rewrite (PyStrFacts.truthy_true N). split; [reflexivity|].
    apply PyStrFacts.contains_after, PyStrFacts.contains_after,
      PyStrFacts.contains_end.
  - intros ->. simpl. now rewrite PyStrFacts.append_nil_r.
Qed.

(** C4.  For a name that is not registered and a creation call that
    returns, [_ensure_session] draws one identifier, makes exactly one
    creation call with it, appends the entry to the registry and returns
    the identifier.  After any further run of [_ensure_session] calls, a
    call with the same name returns the same identifier and leaves
    everything as it is, the call log included; over the run every
    creation that returned matches exactly one new registry entry, and no
    name is registered twice. *)
Theorem ensure_session_creates_once
    (name : string) (w : World SB) (sb' : SB) :
  PyDict.get name (_sessions w) = None ->
  create_session (uuid4_at (draws w)) (sandbox w) = (Return tt, sb') ->
  exists w1,
    _ensure_session uuid4_at name w = (Return (uuid4_at (draws w)), w1)
    /\ _sessions w1 = (_sessions w ++ [(name, uuid4_at (draws w))])%list
    /\ calls w1 = (calls w ++ [CreateSession (uuid4_at (draws w)) true])%list
    /\ forall others : list string,
         let w2 := ensure_all uuid4_at others w1 in
         _ensure_session uuid4_at name w2 = (Return (uuid4_at (draws w)), w2)
         /\ created (calls w2) + length (_sessions w1)
            = created (calls w1) + length (_sessions w2)
         /\ (NoDup (PyDict.keys (_sessions w)) ->
             NoDup (PyDict.keys (_sessions w2))).
Proof.
  intros G C.
  pose proof (ensure_absent_ok uuid4_at _ _ G C) as E.
  eexists; split; [exact E|]; simpl.
  split; [reflexivity | split; [reflexivity|]].
  intros others.
  split; [|split].
  - apply ensure_present. apply ensure_all_keeps; simpl.
    rewrite <- (PyDictFacts.set_absent _ (uuid4_at (draws w)) _ G).
    apply PyDictFacts.get_set_same.
  - apply (ensure_all_count uuid4_at others).
  - pose proof (ensure_all_count uuid4_at (name :: others) w) as [_ N].
    simpl in N. rewrite E in N. exact N.
Qed.

(** C7.  For a name that is not registered and a creation call that
    raises, [_ensure_session] raises and the registry is what it was before
    the call.  When the cause is an instance of [Exception], what is raised
    is a [RuntimeError] whose text is ["Failed to create session: "]
    followed by the text of the cause. *)
Theorem ensure_session_failure_leaves_registry
    (name : string) (w : World SB) (e : exn) (sb' : SB) :
  PyDict.get name (_sessions w) = None ->
  create_session (uuid4_at (draws w)) (sandbox w) = (Raise e, sb') ->
  exists r w',
    _ensure_session uuid4_at name w = (Raise r, w')
    /\ _sessions w' = _sessions w
    /\ (is_Exception e = true ->
        r = RuntimeError ("Failed to create session: " ++ exn_str e)).
Proof.
  intros G C. rewrite (ensure_absent_raise uuid4_at _ _ G C).
  eexists; eexists; split; [reflexivity|]. split; [reflexivity|].
  now intros ->.
Qed.

(** C6.  Once the session is resolved, the one command [execute_command]
    submits to the collaborator is the text ["cd "], the working directory,
    [" && "] and the original command, unchanged; the request is blocking
    and carries the same working directory.  The only other call made
    afterwards is the retrieval of the log. *)
Theorem submitted_command_is_prefixed
    (cmd : string) (folder : option string) (name : string) (timeout : Z)
    (w w1 : World SB) (sid : string) :
  _ensure_session uuid4_at name w = (Return sid, w1) ->
  exists req ok rest r w',
    execute_command uuid4_at cmd folder name timeout w = (r, w')
    /\ calls w'
       = (calls w1 ++ ExecuteSessionCommand sid req timeout ok :: rest)%list
    /\ command req
       = "cd " ++ effective_cwd (workspace_path w) folder ++ " && " ++ cmd
    /\ cwd req = effective_cwd (workspace_path w) folder
    /\ var_async req = false
    /\ (forall c, In c rest ->
          exists cid ok', c = GetSessionCommandLogs sid cid ok').
Proof.
  intros E.
  assert (P : workspace_path w1 = workspace_path w)
    by (pose proof (ensure_step uuid4_at name w) as S; rewrite E in S; apply S).
  rewrite execute_command_run, E; cbv zeta. rewrite P.
  destruct (execute_session_command _ _ _ _) as [[resp|e] sb2].
  - destruct (get_session_command_logs _ _ _) as [[logs|e] sb3];
      do 5 eexists; (split; [reflexivity|]); simpl;
      (split; [reflexivity|]); repeat (split; [reflexivity|]);
      intros c [<-|[]]; eauto.
  - do 5 eexists; (split; [reflexivity|]); simpl;
      (split; [reflexivity|]); repeat (split; [reflexivity|]).
    intros c [].
Qed.

(** C8 (amended).  For a name that is registered, [_cleanup_session] makes
    one remote deletion call.  When that call returns, the name is removed
    from the registry.  When it raises, the registry keeps the entry: [del]
    comes after the remote call inside the [try] block.  A failure that is
    an instance of [Exception] is caught: a warning line is printed and the
    call returns. *)
Theorem cleanup_session_best_effort (name id : string) (w : World SB) :
  PyDict.get name (_sessions w) = Some id ->
  exists r w',
    _cleanup_session name w = (r, w')
    /\ match fst (delete_session id (sandbox w)) with
       | Return _ =>
           r = Return tt
           /\ _sessions w' = PyDict.del name (_sessions w)
           /\ PyDict.get name (_sessions w') = None
           /\ calls w' = (calls w ++ [DeleteSession id true])%list
           /\ stdout w' = stdout w
       | Raise e =>
           _sessions w' = _sessions w
           /\ calls w' = (calls w ++ [DeleteSession id false])%list
           /\ (is_Exception e = true ->
               r = Return tt
               /\ stdout w' = (stdout w ++ [warning name e])%list)
       end.
Proof.
  intros G.
  destruct (delete_session id (sandbox w)) as [[u|e] sb'] eqn:D; simpl.
  - rewrite (cleanup_present_ok _ _ G D).
    eexists; eexists; split; [reflexivity|]; simpl.
    repeat split. apply PyDictFacts.get_del_same.
  - rewrite (cleanup_present_raise _ _ G D).
    eexists; eexists; split; [reflexivity|]; simpl.
    split; [reflexivity | split; [reflexivity|]].
    intros ->. split; reflexivity.
Qed.

(** C9 (amended).  The names that are still registered after [cleanup] are
    names that were registered before, under the same identifier.
    [cleanup] returns when every failure of a remote deletion is an
    instance of [Exception]; when it returns, every name still registered
    is one whose remote deletion raised during the run.  With a
    collaborator none of whose deletion calls raises the registry is empty
    afterwards. *)
Theorem cleanup_leaves_failed_deletions (w : World SB) :
  exists r w' log,
    cleanup w = (r, w')
    /\ calls w' = (calls w ++ log)%list
    /\ (forall n id,
          PyDict.get n (_sessions w') = Some id ->
          PyDict.get n (_sessions w) = Some id
          /\ (r = Return tt -> In (DeleteSession id false) log))
    /\ (deletes_catchable -> r = Return tt)
    /\ (deletes_return -> r = Return tt /\ _sessions w' = []).
Proof.
  destruct (cleanup_loop (PyDict.keys (_sessions w)) w)
    as (r & w' & log & E & C & K & T & A).
  exists r, w', log. unfold cleanup, bind, get_sessions.
  split; [exact E | split; [exact C | split; [|split; [exact T|]]]].
  - intros n id G. destruct (K n id G) as [G0 I].
    split; [exact G0|]. intros R. apply (I R).
    eapply PyDictFacts.get_in_keys; eassumption.
  - intros R. split; [apply T; now apply deletes_return_catchable|].
    apply PyDictFacts.no_key_empty. intros n.
    destruct (PyDict.get n (_sessions w')) as [id|] eqn:G; [|reflexivity].
    destruct (K n id G) as [G0 _].
    rewrite (A R n (PyDictFacts.get_in_keys _ _ G0)) in G. discriminate.
Qed.

(** C10.  With the empty string as folder, [execute_command] does what it
    does without a folder.  Once the session is resolved, the command it
    submits to the collaborator changes into the workspace root, ["cd "],
    the root, [" && "] and the command, and the request carries the root
    as its working directory; a success envelope reports the root as its
    working directory; and the whole call, its result and every effect, is
    that of the call without a folder. *)
Theorem empty_folder_is_absent
    (cmd : string) (name : string) (timeout : Z) (w w1 : World SB)
    (sid : string) :
  _ensure_session uuid4_at name w = (Return sid, w1) ->
  exists ok rest r w',
    execute_command uuid4_at cmd (Some "") name timeout w = (r, w')
    /\ calls w'
       = (calls w1
          ++ ExecuteSessionCommand sid
               (mk_req ("cd " ++ workspace_path w ++ " && " ++ cmd) false
                       (workspace_path w))
               timeout ok
             :: rest)%list
    /\ (forall c, In c rest ->
          exists cid ok', c = GetSessionCommandLogs sid cid ok')
    /\ (forall p, r = Return (success_response p) ->
          p_cwd p = workspace_path w)
    /\ execute_command uuid4_at cmd None name timeout w = (r, w').
Proof.
  intros E.
  assert (P : workspace_path w1 = workspace_path w)
    by (pose proof (ensure_step uuid4_at name w) as S; rewrite E in S; apply S).
  rewrite !execute_command_run, E; cbv zeta.
  change (effective_cwd (workspace_path w1) (Some ""))
    with (workspace_path w1).
  change (effective_cwd (workspace_path w1) None) with (workspace_path w1).
  rewrite P.
  destruct (execute_session_command _ _ _ _) as [[resp|e] sb2].
  - destruct (get_session_command_logs _ _ _) as [[logs|e] sb3].
    + do 4 eexists. split; [reflexivity|]. simpl.
      split; [reflexivity|]. split; [|split; [|reflexivity]].
      * intros c [<-|[]]; eauto.
      * intros p H. destruct (Z.eqb (exit_code resp) 0);
          inversion H; reflexivity.
    + do 4 eexists. split; [reflexivity|]. simpl.
      split; [reflexivity|]. split; [|split; [|reflexivity]].
      * intros c [<-|[]]; eauto.
      * intros p H. unfold handled in H.
        destruct (is_Exception e); discriminate.
  - do 4 eexists. split; [reflexivity|]. simpl.
    split; [reflexivity|]. split; [|split; [|reflexivity]].
    + intros c [].
    + intros p H. unfold handled in H.
      destruct (is_Exception e); discriminate.
Qed.

End Claims.

(** C5.  Without a folder (none given, or the empty string, which counts as
    none) the working directory is the workspace root.  With a folder it is
    the root, a separator and the folder without the separators at its two
    ends, and nothing else is taken off the folder.  The separators at the
    ends of the folder produce no doubled separator: what is joined to the
    root neither starts nor ends with one, so for a root without one the
    result has a doubled separator only where the folder has one inside. *)
Theorem effective_cwd_spec (root : string) (folder : option string) :
  PyStr.doubled "/" root = false ->
  PyStr.ends_with "/" root = false ->
  match folder with
  | None => effective_cwd root folder = root
  | Some EmptyString => effective_cwd root folder = root
  | Some f =>
      let inner := PyStr.strip "/" f in
      effective_cwd root folder = root ++ "/" ++ inner
      /\ (exists n m,
            f = PyStr.replicate n "/" ++ inner ++ PyStr.replicate m "/")
      /\ PyStr.starts_with "/" inner = false
      /\ PyStr.ends_with "/" inner = false
      /\ PyStr.doubled "/" (effective_cwd root folder) = PyStr.doubled "/" inner
  end.
Proof.
  intros D E.
  destruct folder as [[|a f]|]; [reflexivity| |reflexivity].
  cbv zeta.
  destruct (PyStrFacts.strip_spec "/" (String a f)) as (n & m & F & S & T).
  split; [reflexivity|].
  split; [now exists n, m|].
  split; [exact S|].
  split; [exact T|].
  unfold effective_cwd, PyStr.truthy, PyStr.is_empty, negb.
  now apply PyStrFacts.doubled_join.
Qed.

(** ** The claims that fail, on a run *)

(** C1, as stated, fails when no session can be created: [_ensure_session]
    raises, and [execute_command] still returns an envelope. *)
Lemma execute_catches_session_error :
  fst (_ensure_session (process := scripted no_create) ids "default" (init []))
    = Raise (RuntimeError "Failed to create session: sandbox unreachable")
  /\ fst (execute_command (process := scripted no_create) ids
            "pwd" None "default" 60 (init []))
     = Return
         (fail_response
            "Error executing command: Failed to create session: sandbox unreachable")
  /\ (forall e,
        fst (execute_command (process := scripted no_create) ids
               "pwd" None "default" 60 (init []))
        <> Raise e).
Proof. repeat split. discriminate. Qed.

(** C8, as stated, fails when the remote deletion raises: the name is still
    registered after [_cleanup_session]. *)
Lemma failed_deletion_keeps_entry :
  PyDict.get "s1" (_sessions with_s1) = Some "id-0"
  /\ fst (delete_session (Process := scripted no_delete) "id-0" (sandbox with_s1))
     = Raise unreachable
  /\ exists w',
       _cleanup_session (process := scripted no_delete) "s1" with_s1
         = (Return tt, w')
       /\ PyDict.get "s1" (_sessions w') = Some "id-0".
Proof. repeat split. eexists; split; reflexivity. Qed.

(** C9, as stated, fails when the remote deletions raise: the registry is
    not empty after [cleanup]. *)
Lemma failed_deletions_leave_registry :
  exists w',
    cleanup (process := scripted no_delete) with_s1 = (Return tt, w')
    /\ _sessions w' = [("s1", "id-0")]
    /\ _sessions w' <> [].
Proof. eexists; repeat split. discriminate. Qed.

(** ** The theorems, on a run *)

Lemma execute_command_catches_exceptions_witness :
  fst (execute_command (process := scripted no_execute) ids
         "pwd" None "s1" 60 (init []))
  = Return (fail_response "Error executing command: sandbox unreachable").
Proof.
  destruct (execute_command_catches_exceptions
              (process := scripted no_execute) ids "pwd" None "s1" 60 (init []))
    as [_ M].
  simpl in M. apply M. reflexivity.
Defined.

Lemma empty_folder_is_absent_witness :
  exists ok rest r w',
    execute_command (process := scripted (answering 0 "/workspace")) ids
      "pwd" (Some "") "s1" 60 (init [])
    = (r, w')
    /\ calls w'
       = ([CreateSession "id-0" true;
           ExecuteSessionCommand "id-0"
             (mk_req "cd /workspace && pwd" false "/workspace") 60 ok]
          ++ rest)%list
    /\ execute_command (process := scripted (answering 0 "/workspace")) ids
         "pwd" None "s1" 60 (init [])
       = (r, w').
Proof.
  destruct (empty_folder_is_absent
              (process := scripted (answering 0 "/workspace")) ids
              "pwd" "s1" 60 (init []) (w1 := with_s1) (sid := "id-0"))
    as (ok & rest & r & w' & E & C & _ & _ & N); [reflexivity|].
  exists ok, rest, r, w'. exact (conj E (conj C N)).
Defined.

Lemma execute_success_envelope_witness :
  exists w',
    execute_command (process := scripted (answering 0 "/workspace")) ids
      "pwd" None "s1" 60 (init [])
    = (Return (success_response (mk_payload "/workspace" 0 "/workspace")), w').
Proof.
  apply (execute_success_envelope
           (process := scripted (answering 0 "/workspace")) ids
           "pwd" None "s1" 60 (init []) (w1 := with_s1) (sid := "id-0")
           (resp := mk_resp "cmd-1" 0) (sb2 := ["id-0"]) (sb3 := ["id-0"]));
    reflexivity.
Defined.

Lemma execute_failure_envelope_witness :
  exists msg,
    fst (execute_command (process := scripted (answering 3 "boom")) ids
           "exit 3" (Some "data/") "s1" 60 (init []))
    = Return (fail_response msg)
    /\ msg = "Command failed with exit code 3: boom"
    /\ PyStr.contains "3" msg
    /\ PyStr.contains "boom" msg.
Proof.
  destruct (execute_failure_envelope
              (process := scripted (answering 3 "boom")) ids
              "exit 3" (Some "data/") "s1" 60 (init []) (w1 := with_s1)
              (sid := "id-0") (resp := mk_resp "cmd-1" 3) (logs := "boom")
              (sb2 := ["id-0"]) (sb3 := ["id-0"]))
    as (msg & w' & E & C & L & _);
    [reflexivity | reflexivity | reflexivity | simpl; lia |].
  exists msg. rewrite E. destruct L as [M B]; [discriminate|].
  repeat split; assumption.
Defined.

Lemma ensure_session_creates_once_witness :
  exists w1,
    _ensure_session (process := scripted (answering 0 "")) ids "s1" (init [])
      = (Return "id-0", w1)
    /\ _sessions w1 = [("s1", "id-0")]
    /\ calls w1 = [CreateSession "id-0" true].
Proof.
  destruct (ensure_session_creates_once
              (process := scripted (answering 0 "")) ids "s1" (init [])
              (sb' := ["id-0"]))
    as (w1 & E & S & C & _); [reflexivity | reflexivity |].
  exists w1. exact (conj E (conj S C)).
Defined.

Lemma ensure_session_failure_leaves_registry_witness :
  exists w',
    _ensure_session (process := scripted no_create) ids "default" (init [])
      = (Raise (RuntimeError "Failed to create session: sandbox unreachable"), w')
    /\ _sessions w' = [].
Proof.
  destruct (ensure_session_failure_leaves_registry
              (process := scripted no_create) ids "default" (init [])
              (e := unreachable) (sb' := []))
    as (r & w' & E & S & R); [reflexivity | reflexivity |].
  exists w'. rewrite (R eq_refl) in E. exact (conj E S).
Defined.

Lemma submitted_command_is_prefixed_witness :
  exists req ok rest,
    calls (snd (execute_command (process := scripted (answering 0 "")) ids
                  "ls -l" (Some "/data/pdfs/") "s1" 60 (init [])))
    = (calls with_s1 ++ ExecuteSessionCommand "id-0" req 60 ok :: rest)%list
    /\ command req = "cd /workspace/data/pdfs && ls -l".
Proof.
  destruct (submitted_command_is_prefixed
              (process := scripted (answering 0 "")) ids
              "ls -l" (Some "/data/pdfs/") "s1" 60 (init [])
              (w1 := with_s1) (sid := "id-0"))
    as (req & ok & rest & r & w' & E & C & Q & _); [reflexivity|].
  exists req, ok, rest. rewrite E. exact (conj C Q).
Defined.

Lemma cleanup_session_best_effort_witness :
  exists w',
    _cleanup_session (process := scripted no_delete) "s1" with_s1
      = (Return tt, w')
    /\ _sessions w' = [("s1", "id-0")]
    /\ stdout w'
       = ["Warning: Failed to cleanup session s1: sandbox unreachable"].
Proof.
  destruct (cleanup_session_best_effort
              (process := scripted no_delete) "s1" (id := "id-0") with_s1)
    as (r & w' & E & M); [reflexivity|].
  simpl in M. destruct M as (S & _ & H). destruct (H eq_refl) as [R O].
  exists w'. rewrite R in E. exact (conj E (conj S O)).
Defined.

Lemma cleanup_leaves_failed_deletions_witness :
  exists w',
    cleanup (process := scripted (answering 0 "")) with_s1 = (Return tt, w')
    /\ _sessions w' = [].
Proof.
  destruct (cleanup_leaves_failed_deletions
              (process := scripted (answering 0 "")) with_s1)
    as (r & w' & log & E & _ & _ & _ & A).
  destruct A as [R S]; [intros id sb; reflexivity|].
  exists w'. rewrite R in E. exact (conj E S).
Defined.

Lemma effective_cwd_spec_witness :
  effective_cwd "/workspace" (Some "/data/pdfs/") = "/workspace/data/pdfs"
  /\ PyStr.doubled "/" (effective_cwd "/workspace" (Some "/data/pdfs/")) = false.
Proof.
  destruct (effective_cwd_spec "/workspace" (Some "/data/pdfs/"))
    as (E & _ & _ & _ & D); [reflexivity | reflexivity |].
  split; [exact E | rewrite D; reflexivity].
Defined.

(** * Further properties of the code *)

(** ** The working directory *)

Module CwdFacts.
Import PyStr.

Lemma lstrip_run (c : ascii) (n : nat) (s : string) :
  lstrip c (replicate n c ++ s) = lstrip c s.
Proof.
  induction n as [|n IH]; simpl; [reflexivity|].
  now rewrite Ascii.eqb_refl.
Qed.

Lemma lstrip_fixed (c : ascii) (s : string) :
  starts_with c s = false -> lstrip c s = s.
Proof. destruct s as [|a s]; simpl; [reflexivity|]. now intros ->. Qed.

Lemma rstrip_run (c : ascii) (m : nat) : rstrip c (replicate m c) = "".
Proof.
  induction m as [|m IH]; simpl; [reflexivity|].
  now rewrite IH, Ascii.eqb_refl.
Qed.

Lemma rstrip_padded (c : ascii) (g : string) (m : nat) :
  ends_with c g = false -> rstrip c (g ++ replicate m c) = g.
Proof.
  induction g as [|a g IH]; intros E; simpl.
  - apply rstrip_run.
  - destruct g as [|b g'].
    + simpl in *. now rewrite rstrip_run, E.
    + rewrite IH by exact E. simpl. now rewrite andb_false_r.
Qed.

Lemma lstrip_all (c : ascii) (m : nat) : lstrip c (replicate m c) = "".
Proof.
  induction m as [|m IH]; simpl; [reflexivity|].
  now rewrite Ascii.eqb_refl.
Qed.

(** [strip] undoes any padding with the character. *)
Lemma strip_padded (c : ascii) (g : string) (n m : nat) :
  starts_with c g = false -> ends_with c g = false ->
  strip c (replicate n c ++ g ++ replicate m c) = g.
Proof.
  intros S E. unfold strip. rewrite lstrip_run.
  destruct g as [|a g].
  - simpl. now rewrite lstrip_all.
  - rewrite lstrip_fixed by exact S. now apply rstrip_padded.
Qed.

End CwdFacts.

(** X1.  A folder that is a non-empty path padded with any number of
    separators at its two ends gives the working directory of the path
    without the padding. *)
Theorem padded_folder_same_directory
    (root g : string) (n m : nat) :
  g <> "" ->
  PyStr.starts_with "/" g = false ->
  PyStr.ends_with "/" g = false ->
  effective_cwd root
    (Some (PyStr.replicate n "/" ++ g ++ PyStr.replicate m "/"))
  = root ++ "/" ++ g
  /\ effective_cwd root
       (Some (PyStr.replicate n "/" ++ g ++ PyStr.replicate m "/"))
     = effective_cwd root (Some g).
Proof.
  intros N S E.
  assert (T : forall k l,
             effective_cwd root
               (Some (PyStr.replicate k "/" ++ g ++ PyStr.replicate l "/"))
             = root ++ "/" ++ g).
  { intros k l. unfold effective_cwd.
    rewrite CwdFacts.strip_padded by assumption.
    destruct k; [destruct g; [congruence|]|]; reflexivity. }
  split; [apply T|].
  rewrite T. pose proof (T 0 0) as T0.
  cbn [PyStr.replicate append] in T0.
  rewrite PyStrFacts.append_nil_r in T0. now rewrite T0.
Qed.

(** X2.  A folder made of separators only is not taken for an absent one:
    the working directory is the root followed by one separator. *)
Theorem separators_only_folder (root : string) (n : nat) :
  effective_cwd root (Some (PyStr.replicate (S n) "/")) = root ++ "/".
Proof.
  unfold effective_cwd, PyStr.strip. simpl PyStr.truthy. cbv iota.
  now rewrite CwdFacts.lstrip_all.
Qed.

(** ** More on dictionaries *)

Module PyDictMore.
Import PyDict.

Lemma del_absent (k : string) (d : dict) : get k d = None -> del k d = d.
Proof.
  unfold del. induction d as [|[k' v'] d IH]; simpl; [reflexivity|].
  destruct (String.eqb k k'); [discriminate|].
  intros G; simpl. now rewrite IH.
Qed.

(** Deleting the key that was registered last gives the dictionary back. *)
Lemma del_snoc (k v : string) (d : dict) :
  get k d = None -> del k (d ++ [(k, v)])%list = d.
Proof.
  intros G. unfold del. rewrite filter_app; simpl.
  rewrite String.eqb_refl; simpl. rewrite app_nil_r.
  now apply del_absent.
Qed.

Lemma in_del (kv : string * string) (k : string) (d : dict) :
  In kv (del k d) -> In kv d.
Proof. unfold del. intros I. now apply filter_In in I. Qed.

Lemma keys_del_nodup (k : string) (d : dict) :
  NoDup (keys d) -> NoDup (keys (del k d)).
Proof.
  unfold del, keys. induction d as [|[k' v'] d IH]; simpl; [auto|].
  intros N. inversion N as [|x l NI N']; subst.
  destruct (String.eqb k k'); simpl; [now apply IH|].
  constructor; [|now apply IH].
  intros I. apply NI. apply in_map_iff in I as [kv [E I]].
  apply in_map_iff. exists kv. split; [exact E|]. now apply filter_In in I.
Qed.

Lemma values_del_nodup (k : string) (d : dict) :
  NoDup (map snd d) -> NoDup (map snd (del k d)).
Proof.
  unfold del. induction d as [|[k' v'] d IH]; simpl; [auto|].
  intros N. inversion N as [|x l NI N']; subst.
  destruct (String.eqb k k'); simpl; [now apply IH|].
  constructor; [|now apply IH].
  intros I. apply NI. apply in_map_iff in I as [kv [E I]].
  apply in_map_iff. exists kv. split; [exact E|]. now apply filter_In in I.
Qed.

(** With distinct keys, deleting a key that is there takes one item away. *)
Lemma length_del (k v : string) (d : dict) :
  NoDup (keys d) -> get k d = Some v -> S (length (del k d)) = length d.
Proof.
  unfold keys. induction d as [|[k' v'] d IH]; simpl; [discriminate|].
  intros N G. inversion N as [|x l NI N']; subst.
  unfold del; simpl.
  destruct (String.eqb_spec k k') as [<-|K]; simpl.
  - f_equal. fold (del k d). f_equal. apply del_absent.
    destruct (get k d) as [v0|] eqn:G0; [|reflexivity].
    exfalso. apply NI. eapply PyDictFacts.get_in_keys; eassumption.
  - f_equal. now apply IH.
Qed.


End PyDictMore.

(** ** The life of a session *)

Section Lifecycle.

Context {SB : Type} {process : Process SB}.
Variable uuid4_at : nat -> string.

(** X3.  Resolving a new name and then cleaning it up, with a collaborator
    that creates and deletes the session, gives the registry back as it
    was; the collaborator has seen one creation and one deletion, of the
    same identifier. *)
Theorem ensure_then_cleanup_restores
    (name : string) (w : World SB) (sb1 sb2 : SB) :
  PyDict.get name (_sessions w) = None ->
  create_session (uuid4_at (draws w)) (sandbox w) = (Return tt, sb1) ->
  delete_session (uuid4_at (draws w)) sb1 = (Return tt, sb2) ->
  exists w1 w2,
    _ensure_session uuid4_at name w = (Return (uuid4_at (draws w)), w1)
    /\ _cleanup_session name w1 = (Return tt, w2)
    /\ _sessions w2 = _sessions w
    /\ sandbox w2 = sb2
    /\ calls w2
       = (calls w ++ [CreateSession (uuid4_at (draws w)) true;
                      DeleteSession (uuid4_at (draws w)) true])%list.
Proof.
  intros G C D.
  rewrite (ensure_absent_ok uuid4_at _ _ G C).
  eexists; eexists; split; [reflexivity|].
  erewrite cleanup_present_ok; simpl.
  - split; [reflexivity|]. rewrite PyDictMore.del_snoc by exact G.
    rewrite <- app_assoc. repeat split.
  - rewrite <- (PyDictFacts.set_absent _ (uuid4_at (draws w)) _ G).
    apply PyDictFacts.get_set_same.
  - exact D.
Qed.

(** X4.  After a deletion that returned, a second [_cleanup_session] of the
    same name finds nothing to do: it makes no call, prints nothing and
    does not raise. *)
Theorem cleanup_session_twice
    (name id : string) (w : World SB) (sb' : SB) :
  PyDict.get name (_sessions w) = Some id ->
  delete_session id (sandbox w) = (Return tt, sb') ->
  exists w1,
    _cleanup_session name w = (Return tt, w1)
    /\ _cleanup_session name w1 = (Return tt, w1).
Proof.
  intros G D. rewrite (cleanup_present_ok _ _ G D).
  eexists; split; [reflexivity|].
  apply cleanup_absent. simpl. apply PyDictFacts.get_del_same.
Qed.

(** X5.  A creation that raised is not remembered: the next call for the
    same name asks the collaborator again, with the next identifier, and
    registers that one when the call returns. *)
Theorem failed_creation_is_retried
    (name : string) (w : World SB) (e : exn) (sb1 sb2 : SB) :
  PyDict.get name (_sessions w) = None ->
  create_session (uuid4_at (draws w)) (sandbox w) = (Raise e, sb1) ->
  create_session (uuid4_at (S (draws w))) sb1 = (Return tt, sb2) ->
  exists w1 w2,
    snd (_ensure_session uuid4_at name w) = w1
    /\ _ensure_session uuid4_at name w1 = (Return (uuid4_at (S (draws w))), w2)
    /\ _sessions w2 = (_sessions w ++ [(name, uuid4_at (S (draws w)))])%list
    /\ calls w2
       = (calls w ++ [CreateSession (uuid4_at (draws w)) false;
                      CreateSession (uuid4_at (S (draws w))) true])%list.
Proof.
  intros G C1 C2.
  rewrite (ensure_absent_raise uuid4_at _ _ G C1); simpl.
  eexists; eexists; split; [reflexivity|].
  erewrite ensure_absent_ok; simpl; [|exact G|exact C2].
  rewrite <- app_assoc. repeat split.
Qed.

(** X6.  When the session cannot be created, [execute_command] submits
    nothing: the failed creation is the only call it makes, the registry is
    unchanged and nothing is printed.  When the cause is an instance of
    [Exception], a failure envelope that carries the cause is returned. *)
Theorem execute_without_session_submits_nothing
    (cmd : string) (folder : option string) (name : string) (timeout : Z)
    (w : World SB) (e : exn) (sb' : SB) :
  PyDict.get name (_sessions w) = None ->
  create_session (uuid4_at (draws w)) (sandbox w) = (Raise e, sb') ->
  exists r w',
    execute_command uuid4_at cmd folder name timeout w = (r, w')
    /\ _sessions w' = _sessions w
    /\ calls w' = (calls w ++ [CreateSession (uuid4_at (draws w)) false])%list
    /\ stdout w' = stdout w
    /\ (is_Exception e = true ->
        r = Return
              (fail_response
                 ("Error executing command: Failed to create session: "
                  ++ exn_str e))).
Proof.
  intros G C.
  rewrite execute_command_run, (ensure_absent_raise uuid4_at _ _ G C).
  eexists; eexists; split; [reflexivity|]; simpl.
  repeat split. now intros ->.
Qed.

(** X7.  With a name that is registered, [execute_command] creates nothing
    and draws no identifier, whatever its outcome: every call it makes is
    about the registered session, the first one is the submission, and the
    registry is unchanged. *)
Theorem execute_reuses_registered_session
    (cmd : string) (folder : option string) (name id : string) (timeout : Z)
    (w : World SB) :
  PyDict.get name (_sessions w) = Some id ->
  exists r w' req ok rest,
    execute_command uuid4_at cmd folder name timeout w = (r, w')
    /\ _sessions w' = _sessions w
    /\ draws w' = draws w
    /\ calls w'
       = (calls w ++ ExecuteSessionCommand id req timeout ok :: rest)%list
    /\ created (calls w') = created (calls w)
    /\ Forall (fun c => call_session c = id /\ is_command_call c = true) rest.
Proof.
  intros G.
  rewrite execute_command_run, (ensure_present uuid4_at _ _ G); cbv zeta.
  assert (K : forall l, Forall (fun c => is_created c = false) l ->
                        created (calls w ++ l) = created (calls w)).
  { intros l F. unfold created. rewrite filter_app, length_app.
    replace (filter is_created l) with (@nil Call); [simpl; lia|].
    induction F as [|c l H F IH]; simpl; [reflexivity|]. now rewrite H. }
  destruct (execute_session_command _ _ _ _) as [[resp|e] sb2].
  - destruct (get_session_command_logs _ _ _) as [[logs|e] sb3];
      do 5 eexists; (split; [reflexivity|]); simpl;
      (repeat split; [apply K; repeat constructor|]);
      repeat constructor.
  - do 5 eexists; (split; [reflexivity|]); simpl.
    repeat split; [apply K; repeat constructor|]. constructor.
Qed.

(** X8.  A success envelope is only ever returned for a command that was
    submitted, reported exit code 0 and whose log was fetched: the envelope
    carries exit code 0, that log, and the working directory computed from
    the folder. *)
Theorem success_envelope_only_for_exit_zero
    (cmd : string) (folder : option string) (name : string) (timeout : Z)
    (w : World SB) (p : payload) :
  fst (execute_command uuid4_at cmd folder name timeout w)
  = Return (success_response p) ->
  p_exit_code p = 0%Z
  /\ p_cwd p = effective_cwd (workspace_path w) folder
  /\ exists sid w1 resp sb2 sb3,
       _ensure_session uuid4_at name w = (Return sid, w1)
       /\ execute_session_command sid
            (mk_req ("cd " ++ p_cwd p ++ " && " ++ cmd) false (p_cwd p))
            timeout (sandbox w1)
          = (Return resp, sb2)
       /\ exit_code resp = 0%Z
       /\ get_session_command_logs sid (cmd_id resp) sb2
          = (Return (p_output p), sb3).
Proof.
  rewrite execute_command_run.
  pose proof (ensure_step uuid4_at name w) as [P _].
  destruct (_ensure_session uuid4_at name w) as [[sid|e] w1];
    [|unfold handled; simpl; destruct (is_Exception e); discriminate].
  simpl in P. cbv zeta. rewrite P.
  destruct (execute_session_command _ _ _ _) as [[resp|e] sb2] eqn:X;
    [|unfold handled; simpl; destruct (is_Exception e); discriminate].
  destruct (get_session_command_logs _ _ _) as [[logs|e] sb3] eqn:L;
    [|unfold handled; simpl; destruct (is_Exception e); discriminate].
  destruct (Z.eqb_spec (exit_code resp) 0) as [Z0|NZ]; [|discriminate].
  simpl. intros H. inversion H; subst p; simpl.
  repeat split; [exact Z0|].
  exists sid, w1, resp, sb2, sb3. repeat split; assumption.
Qed.

End Lifecycle.

(** ** The calls of [cleanup] *)

Section CleanupOrder.

Context {SB : Type} {process : Process SB}.



End CleanupOrder.

(** ** What every run of requests keeps *)

Module LogFacts.

Lemma created_app (l l' : list Call) :
  created (l ++ l') = created l + created l'.
Proof. unfold created. now rewrite filter_app, length_app. Qed.

Lemma deleted_app (l l' : list Call) :
  deleted (l ++ l') = deleted l + deleted l'.
Proof. unfold deleted. now rewrite filter_app, length_app. Qed.

Lemma commands_create_nothing (log : list Call) :
  Forall (fun c => is_command_call c = true) log ->
  created log = 0 /\ deleted log = 0.
Proof.
  induction 1 as [|c l H F [IH1 IH2]]; [split; reflexivity|].
  unfold created, deleted in *; simpl.
  destruct c; try discriminate; simpl; auto.
Qed.

Lemma commands_delete_nothing (log : list Call) :
  Forall (fun c => is_command_call c = true) log ->
  Forall (fun c => is_delete_call c = false) log.
Proof.
  induction 1 as [|c l H F IH]; constructor; [|exact IH].
  destruct c; try discriminate; reflexivity.
Qed.

End LogFacts.

Section Reachable.

Context {SB : Type} {process : Process SB}.
Variable uuid4_at : nat -> string.

(** After the session is resolved, [execute_command] only talks to the
    collaborator about the command. *)
Lemma execute_frame
    (cmd : string) (folder : option string) (name : string) (timeout : Z)
    (w : World SB) :
  exists sb log,
    snd (execute_command uuid4_at cmd folder name timeout w)
    = mk_world (_sessions (snd (_ensure_session uuid4_at name w)))
               (workspace_path (snd (_ensure_session uuid4_at name w)))
               sb
               (draws (snd (_ensure_session uuid4_at name w)))
               (calls (snd (_ensure_session uuid4_at name w)) ++ log)%list
               (stdout (snd (_ensure_session uuid4_at name w)))
    /\ Forall (fun c => is_command_call c = true) log.
Proof.
  rewrite execute_command_run.
  destruct (_ensure_session uuid4_at name w) as [[sid|e] w1]; simpl.
  - destruct (execute_session_command _ _ _ _) as [[resp|e] sb2];
      [destruct (get_session_command_logs _ _ _) as [[logs|e] sb3]|];
      simpl; eexists; eexists; (split; [reflexivity|]); repeat constructor.
  - exists (sandbox w1), []. destruct w1; simpl. rewrite app_nil_r.
    split; [reflexivity | constructor].
Qed.

(** What [_ensure_session] leaves alone. *)
Lemma ensure_frame (name : string) (w : World SB) :
  stdout (snd (_ensure_session uuid4_at name w)) = stdout w
  /\ exists log,
       calls (snd (_ensure_session uuid4_at name w)) = (calls w ++ log)%list
       /\ Forall (fun c => is_delete_call c = false) log.
Proof.
  destruct (PyDict.get name (_sessions w)) as [id|] eqn:G.
  - rewrite (ensure_present uuid4_at _ _ G); simpl.
    split; [reflexivity|]. exists []. rewrite app_nil_r. split; constructor.
  - destruct (create_session (uuid4_at (draws w)) (sandbox w))
      as [[u|e] sb'] eqn:C.
    + rewrite (ensure_absent_ok uuid4_at _ _ G C); simpl.
      split; [reflexivity|]. eexists; split; [reflexivity|].
      repeat constructor.
    + rewrite (ensure_absent_raise uuid4_at _ _ G C); simpl.
      split; [reflexivity|]. eexists; split; [reflexivity|].
      repeat constructor.
Qed.

Lemma cleanup_loop_keeps (P : World SB -> Prop) :
  (forall n w, P w -> P (snd (_cleanup_session n w))) ->
  forall names w, P w -> P (snd (for_each names _cleanup_session w)).
Proof.
  intros H names. induction names as [|n r IH]; intros w Pw; simpl; [exact Pw|].
  unfold bind. pose proof (H n w Pw) as P1.
  destruct (_cleanup_session n w) as [[u|e] w1]; simpl in *;
    [now apply IH | exact P1].
Qed.

(** The registry is only touched through [_ensure_session] and
    [_cleanup_session]: what these two keep, and what does not depend on
    the calls about commands, holds after every run of requests. *)
Lemma requests_ind (P : World SB -> Prop) :
  (forall n w, P w -> P (snd (_ensure_session uuid4_at n w))) ->
  (forall n w, P w -> P (snd (_cleanup_session n w))) ->
  (forall w sb log,
     P w -> Forall (fun c => is_command_call c = true) log ->
     P (mk_world (_sessions w) (workspace_path w) sb (draws w)
                 (calls w ++ log)%list (stdout w))) ->
  forall rs w, P w -> P (run_requests uuid4_at rs w).
Proof.
  intros He Hc Hf rs.
  induction rs as [|r rs IH]; intros w Pw; simpl; [exact Pw|].
  apply IH. destruct r as [cmd folder name timeout|]; simpl.
  - destruct (execute_frame cmd folder name timeout w) as (sb & log & E & F).
    rewrite E. apply Hf; [now apply He | exact F].
  - unfold cleanup, bind, get_sessions. now apply cleanup_loop_keeps.
Qed.

Lemma ensure_accounted (n : string) (w : World SB) :
  accounted w -> accounted (snd (_ensure_session uuid4_at n w)).
Proof.
  intros [N A]. unfold accounted.
  destruct (PyDict.get n (_sessions w)) as [id|] eqn:G.
  - rewrite (ensure_present uuid4_at _ _ G); simpl. now split.
  - destruct (create_session (uuid4_at (draws w)) (sandbox w))
      as [[u|e] sb'] eqn:C.
    + rewrite (ensure_absent_ok uuid4_at _ _ G C); simpl. split.
      * rewrite PyDictFacts.keys_snoc.
        apply NoDup_app; [exact N | constructor; [simpl; tauto | constructor] |].
        intros x I [<-|[]]. now apply (PyDictFacts.not_in_keys _ _ G).
      * rewrite LogFacts.created_app, LogFacts.deleted_app, length_app.
        unfold created, deleted in *; simpl. lia.
    + rewrite (ensure_absent_raise uuid4_at _ _ G C); simpl. split; [exact N|].
      rewrite LogFacts.created_app, LogFacts.deleted_app.
      unfold created, deleted in *; simpl. lia.
Qed.

Lemma cleanup_session_accounted (n : string) (w : World SB) :
  accounted w -> accounted (snd (_cleanup_session n w)).
Proof.
  intros [N A]. unfold accounted.
  destruct (PyDict.get n (_sessions w)) as [id|] eqn:G.
  - destruct (delete_session id (sandbox w)) as [[u|e] sb'] eqn:D.
    + rewrite (cleanup_present_ok _ _ G D); simpl. split.
      * now apply PyDictMore.keys_del_nodup.
      * pose proof (@PyDictMore.length_del n id _ N G) as L.
        rewrite LogFacts.created_app, LogFacts.deleted_app.
        unfold created, deleted in *; simpl. lia.
    + rewrite (cleanup_present_raise _ _ G D); simpl. split; [exact N|].
      rewrite LogFacts.created_app, LogFacts.deleted_app.
      unfold created, deleted in *; simpl. lia.
  - rewrite (cleanup_absent _ _ G); simpl. now split.
Qed.

Lemma cleanup_session_workspace (n : string) (w : World SB) :
  workspace_path (snd (_cleanup_session n w)) = workspace_path w.
Proof.
  destruct (PyDict.get n (_sessions w)) as [id|] eqn:G.
  - destruct (delete_session id (sandbox w)) as [[u|e] sb'] eqn:D.
    + now rewrite (cleanup_present_ok _ _ G D).
    + now rewrite (cleanup_present_raise _ _ G D).
  - now rewrite (cleanup_absent _ _ G).
Qed.

(** X10.  Over every run of [execute_command] and [cleanup] calls on an
    instance, no name is registered twice and the sessions the collaborator
    has created are exactly the registered ones plus the ones it has
    deleted; the workspace root never changes. *)
Theorem requests_keep_sessions_accounted
    (rs : list request) (w : World SB) :
  accounted w ->
  accounted (run_requests uuid4_at rs w)
  /\ workspace_path (run_requests uuid4_at rs w) = workspace_path w.
Proof.
  intros A.
  apply (requests_ind
           (fun w' => accounted w' /\ workspace_path w' = workspace_path w)).
  - intros n w0 [A0 P0]. split; [now apply ensure_accounted|].
    now rewrite (proj1 (ensure_step uuid4_at n w0)).
  - intros n w0 [A0 P0]. split; [now apply cleanup_session_accounted|].
    now rewrite cleanup_session_workspace.
  - intros w0 sb log [[N0 A0] P0] F. split; [|exact P0].
    split; [exact N0|]; simpl.
    destruct (LogFacts.commands_create_nothing F) as [C D].
    rewrite LogFacts.created_app, LogFacts.deleted_app, C, D. lia.
  - now split.
Qed.

End Reachable.

(** ** Identifiers and names *)

Module PyDictValues.
Import PyDict.

Lemma get_in (n v : string) (d : dict) : get n d = Some v -> In (n, v) d.
Proof.
  induction d as [|[k' v'] d IH]; simpl; [discriminate|].
  destruct (String.eqb_spec n k') as [->|N].
  - intros H; inversion H; now left.
  - intros H; right; now apply IH.
Qed.

(** With distinct values, a value belongs to one key. *)
Lemma one_key_per_value (a b v : string) (d : dict) :
  NoDup (map snd d) -> In (a, v) d -> In (b, v) d -> a = b.
Proof.
  induction d as [|[k' v'] d IH]; simpl; [tauto|].
  intros N Ia Ib. inversion N as [|x l NI N']; subst.
  assert (O : forall k, In (k, v') d -> False).
  { intros k I. apply NI. apply in_map_iff. now exists (k, v'). }
  destruct Ia as [Ea|Ia], Ib as [Eb|Ib].
  - congruence.
  - inversion Ea; subst. destruct (O _ Ib).
  - inversion Eb; subst. destruct (O _ Ia).
  - now apply IH.
Qed.

End PyDictValues.

Section Identifiers.

Context {SB : Type} {process : Process SB}.
Variable uuid4_at : nat -> string.

(** [uuid4] never hands out the same identifier twice. *)
Hypothesis uuid4_fresh : forall i j, uuid4_at i = uuid4_at j -> i = j.

Lemma ensure_ids_drawn (n : string) (w : World SB) :
  ids_drawn uuid4_at w ->
  ids_drawn uuid4_at (snd (_ensure_session uuid4_at n w)).
Proof.
  intros [B N]. unfold ids_drawn.
  destruct (PyDict.get n (_sessions w)) as [id|] eqn:G.
  - rewrite (ensure_present uuid4_at _ _ G); simpl. now split.
  - destruct (create_session (uuid4_at (draws w)) (sandbox w))
      as [[u|e] sb'] eqn:C.
    + rewrite (ensure_absent_ok uuid4_at _ _ G C); simpl. split.
      * intros k v I. apply in_app_or in I as [I|[E|[]]].
        -- destruct (B k v I) as (i & L & ->). exists i. split; [lia | reflexivity].
        -- inversion E; subst. exists (draws w). split; [lia | reflexivity].
      * rewrite map_app; simpl.
        apply NoDup_app; [exact N | constructor; [simpl; tauto | constructor] |].
        intros x I [<-|[]].
        apply in_map_iff in I as [[k v] [E I]]. simpl in E. subst v.
        destruct (B k _ I) as (i & L & E).
        apply uuid4_fresh in E. lia.
    + rewrite (ensure_absent_raise uuid4_at _ _ G C); simpl. split; [|exact N].
      intros k v I. destruct (B k v I) as (i & L & ->).
      exists i. split; [lia | reflexivity].
Qed.

Lemma cleanup_session_ids_drawn (n : string) (w : World SB) :
  ids_drawn uuid4_at w -> ids_drawn uuid4_at (snd (_cleanup_session n w)).
Proof.
  intros [B N]. unfold ids_drawn.
  destruct (PyDict.get n (_sessions w)) as [id|] eqn:G.
  - destruct (delete_session id (sandbox w)) as [[u|e] sb'] eqn:D.
    + rewrite (cleanup_present_ok _ _ G D); simpl. split.
      * intros k v I. apply (B k). eapply PyDictMore.in_del; eassumption.
      * now apply PyDictMore.values_del_nodup.
    + rewrite (cleanup_present_raise _ _ G D); simpl. now split.
  - rewrite (cleanup_absent _ _ G); simpl. now split.
Qed.

(** X11.  Over every run of [execute_command] and [cleanup] calls, the
    registered identifiers are identifiers [uuid4] has handed out and no two
    names share one: two session names never run in the same sandbox
    session. *)
Theorem distinct_names_distinct_sessions
    (rs : list request) (w : World SB) :
  ids_drawn uuid4_at w ->
  ids_drawn uuid4_at (run_requests uuid4_at rs w)
  /\ forall n1 n2 id,
       PyDict.get n1 (_sessions (run_requests uuid4_at rs w)) = Some id ->
       PyDict.get n2 (_sessions (run_requests uuid4_at rs w)) = Some id ->
       n1 = n2.
Proof.
  intros I.
  assert (R : ids_drawn uuid4_at (run_requests uuid4_at rs w)).
  { apply (requests_ind uuid4_at (ids_drawn uuid4_at)).
    - apply ensure_ids_drawn.
    - apply cleanup_session_ids_drawn.
    - intros w0 sb log H _. exact H.
    - exact I. }
  split; [exact R|].
  intros n1 n2 id G1 G2. destruct R as [_ N].
  eapply PyDictValues.one_key_per_value;
    [exact N | apply PyDictValues.get_in; eassumption..].
Qed.

End Identifiers.

Section Frame.

Context {SB : Type} {process : Process SB}.
Variable uuid4_at : nat -> string.

(** X12.  [execute_command] never deletes a session, never drops or
    changes a registered name, never prints and never changes the workspace
    root, whatever its outcome. *)
Theorem execute_command_keeps_sessions
    (cmd : string) (folder : option string) (name : string) (timeout : Z)
    (w : World SB) :
  let w' := snd (execute_command uuid4_at cmd folder name timeout w) in
  (exists log,
     calls w' = (calls w ++ log)%list
     /\ Forall (fun c => is_delete_call c = false) log)
  /\ (forall n id,
        PyDict.get n (_sessions w) = Some id ->
        PyDict.get n (_sessions w') = Some id)
  /\ stdout w' = stdout w
  /\ workspace_path w' = workspace_path w.
Proof.
  cbv zeta.
  destruct (execute_frame uuid4_at cmd folder name timeout w)
    as (sb & log & E & F).
  rewrite E; simpl.
  destruct (ensure_frame uuid4_at name w) as (S & log1 & C & F1).
  repeat split.
  - exists (log1 ++ log)%list. rewrite C, <- app_assoc. split; [reflexivity|].
    apply Forall_app. split; [exact F1|].
    now apply LogFacts.commands_delete_nothing.
  - intros n id G. now apply ensure_keeps.
  - exact S.
  - apply (ensure_step uuid4_at name w).
Qed.

End Frame.

(** ** The further properties, on a run *)

Lemma tally_fresh (i j : nat) : tally i = tally j -> i = j.
Proof.
  unfold tally. revert j. induction i as [|i IH]; intros [|j]; simpl;
    try discriminate; [reflexivity|].
  intros H. inversion H. f_equal. now apply IH.
Qed.

Lemma padded_folder_same_directory_witness :
  effective_cwd "/workspace" (Some "//data/pdfs/") = "/workspace/data/pdfs"
  /\ effective_cwd "/workspace" (Some "//data/pdfs/")
     = effective_cwd "/workspace" (Some "data/pdfs").
Proof.
  apply (@padded_folder_same_directory "/workspace" "data/pdfs" 2 1);
    [discriminate | reflexivity | reflexivity].
Defined.

Lemma ensure_then_cleanup_restores_witness :
  exists w1 w2,
    _ensure_session (process := scripted (answering 0 "")) ids "s1" (init [])
    = (Return "id-0", w1)
    /\ _cleanup_session (process := scripted (answering 0 "")) "s1" w1
       = (Return tt, w2)
    /\ _sessions w2 = []
    /\ sandbox w2 = []
    /\ calls w2 = [CreateSession "id-0" true; DeleteSession "id-0" true].
Proof.
  apply (@ensure_then_cleanup_restores _ (scripted (answering 0 "")) ids
           "s1" (init []) ["id-0"] []);
    reflexivity.
Defined.

Lemma cleanup_session_twice_witness :
  exists w1,
    _cleanup_session (process := scripted (answering 0 "")) "s1" with_s1
    = (Return tt, w1)
    /\ _cleanup_session (process := scripted (answering 0 "")) "s1" w1
       = (Return tt, w1).
Proof.
  apply (@cleanup_session_twice _ (scripted (answering 0 "")) "s1" "id-0"
           with_s1 []);
    reflexivity.
Defined.

Lemma failed_creation_is_retried_witness :
  exists w1 w2,
    snd (_ensure_session (process := scripted flaky_create) ids "s1" (init []))
    = w1
    /\ _ensure_session (process := scripted flaky_create) ids "s1" w1
       = (Return "id-1", w2)
    /\ _sessions w2 = [("s1", "id-1")]
    /\ calls w2 = [CreateSession "id-0" false; CreateSession "id-1" true].
Proof.
  apply (@failed_creation_is_retried _ (scripted flaky_create) ids
           "s1" (init []) unreachable [] ["id-1"]);
    reflexivity.
Defined.

Lemma execute_without_session_submits_nothing_witness :
  exists w',
    execute_command (process := scripted no_create) ids
      "pwd" None "s1" 60 (init [])
    = (Return
         (fail_response
            "Error executing command: Failed to create session: sandbox unreachable"),
       w')
    /\ _sessions w' = []
    /\ calls w' = [CreateSession "id-0" false]
    /\ stdout w' = [].
Proof.
  destruct (@execute_without_session_submits_nothing _ (scripted no_create)
              ids "pwd" None "s1" 60 (init []) unreachable [])
    as (r & w' & E & S & C & O & R); [reflexivity | reflexivity |].
  exists w'. rewrite (R eq_refl) in E. exact (conj E (conj S (conj C O))).
Defined.

Lemma execute_reuses_registered_session_witness :
  exists r w',
    execute_command (process := scripted (answering 0 "hi")) ids
      "echo hi" None "s1" 60 with_s1
    = (r, w')
    /\ _sessions w' = [("s1", "id-0")]
    /\ created (calls w') = 1.
Proof.
  destruct (@execute_reuses_registered_session _ (scripted (answering 0 "hi"))
              ids "echo hi" None "s1" "id-0" 60 with_s1)
    as (r & w' & req & ok & rest & E & S & _ & _ & K & _); [reflexivity|].
  exists r, w'. exact (conj E (conj S K)).
Defined.

Lemma success_envelope_only_for_exit_zero_witness :
  p_exit_code (mk_payload "/workspace" 0 "/workspace") = 0%Z
  /\ p_cwd (mk_payload "/workspace" 0 "/workspace") = "/workspace".
Proof.
  destruct (@success_envelope_only_for_exit_zero _
              (scripted (answering 0 "/workspace")) ids
              "pwd" None "s1" 60 (init [])
              (mk_payload "/workspace" 0 "/workspace"))
    as (Z0 & C & _); [reflexivity|].
  exact (conj Z0 C).
Defined.


Lemma requests_keep_sessions_accounted_witness :
  accounted
    (run_requests (process := scripted (answering 0 "")) ids
       [ExecuteCommand "ls" None "a" 60; ExecuteCommand "ls" None "b" 60;
        CleanupAll; ExecuteCommand "ls" None "a" 60]
       (init []))
  /\ workspace_path
       (run_requests (process := scripted (answering 0 "")) ids
          [ExecuteCommand "ls" None "a" 60; ExecuteCommand "ls" None "b" 60;
           CleanupAll; ExecuteCommand "ls" None "a" 60]
          (init []))
     = "/workspace".
Proof.
  apply (@requests_keep_sessions_accounted _ (scripted (answering 0 "")) ids).
  split; [constructor | reflexivity].
Defined.

Lemma distinct_names_distinct_sessions_witness :
  ids_drawn tally
    (run_requests (process := scripted (answering 0 "")) tally
       [ExecuteCommand "ls" None "a" 60; ExecuteCommand "ls" None "b" 60]
       (init [])).
Proof.
  apply (@distinct_names_distinct_sessions _ (scripted (answering 0 "")) tally
           tally_fresh).
  split; [intros k v [] | constructor].
Defined.

Lemma execute_command_keeps_sessions_witness :
  PyDict.get "s1"
    (_sessions
       (snd (execute_command (process := scripted no_execute) ids
               "ls" None "s2" 60 with_s1)))
  = Some "id-0".
Proof.
  apply (@execute_command_keeps_sessions _ (scripted no_execute) ids
           "ls" None "s2" 60 with_s1).
  reflexivity.
Defined.

(** ** The calls of [execute_command] and its failure envelopes *)

Section Outcomes.

Context {SB : Type} {process : Process SB}.
Variable uuid4_at : nat -> string.

(** X13.  Once the session is resolved, [execute_command] submits the
    command once.  When the submission raises, no log is asked for; when it
    returns, the log is asked for once, for the command identifier of the
    response, whatever the exit code. *)
Theorem execute_command_call_sequence
    (cmd : string) (folder : option string) (name : string) (timeout : Z)
    (w w1 : World SB) (sid : string) :
  _ensure_session uuid4_at name w = (Return sid, w1) ->
  exists req,
    command req
    = "cd " ++ effective_cwd (workspace_path w) folder ++ " && " ++ cmd
    /\ match execute_session_command sid req timeout (sandbox w1) with
       | (Raise _, _) =>
           calls (snd (execute_command uuid4_at cmd folder name timeout w))
           = (calls w1 ++ [ExecuteSessionCommand sid req timeout false])%list
       | (Return resp, sb2) =>
           calls (snd (execute_command uuid4_at cmd folder name timeout w))
           = (calls w1
              ++ [ExecuteSessionCommand sid req timeout true;
                  GetSessionCommandLogs sid (cmd_id resp)
                    (returned
                       (fst (get_session_command_logs sid (cmd_id resp) sb2)))])%list
       end.
Proof.
  intros E.
  assert (P : workspace_path w1 = workspace_path w)
    by (pose proof (ensure_step uuid4_at name w) as S; rewrite E in S; apply S).
  rewrite execute_command_run, E; cbv zeta. rewrite P.
  exists (mk_req
            ("cd " ++ effective_cwd (workspace_path w) folder ++ " && " ++ cmd)
            false (effective_cwd (workspace_path w) folder)).
  split; [reflexivity|].
  destruct (execute_session_command _ _ _ _) as [[resp|e] sb2];
    [|reflexivity].
  destruct (get_session_command_logs _ _ _) as [[logs|e] sb3]; reflexivity.
Qed.

Lemma ensure_raise_log (name : string) (w w1 : World SB) (e : exn) :
  _ensure_session uuid4_at name w = (Raise e, w1) ->
  exists c, calls w1 = (calls w ++ [c])%list /\ call_returned c = false.
Proof.
  destruct (PyDict.get name (_sessions w)) as [id|] eqn:G.
  - rewrite (ensure_present uuid4_at _ _ G). discriminate.
  - destruct (create_session (uuid4_at (draws w)) (sandbox w))
      as [[u|e'] sb'] eqn:C.
    + rewrite (ensure_absent_ok uuid4_at _ _ G C). discriminate.
    + rewrite (ensure_absent_raise uuid4_at _ _ G C).
      intros H; inversion H; subst; simpl.
      eexists; split; reflexivity.
Qed.

(** X14.  A failure envelope of [execute_command] is one of two kinds, told
    apart by how the message starts.  Either the session was resolved, the
    command was submitted and reported an exit code other than 0 and its
    log was fetched: the message is the exit code sentence for that exit
    code and that log.  Or a collaborator call raised an instance of
    [Exception], while the session was resolved, while the command was
    submitted or while its log was fetched: the message is ["Error
    executing command: "] with the text of what [_ensure_session] raised or
    of that exception, and the last call in the call log is one that did
    not return. *)
Theorem failure_envelope_kinds
    (cmd : string) (folder : option string) (name : string) (timeout : Z)
    (w : World SB) (msg : string) :
  fst (execute_command uuid4_at cmd folder name timeout w)
  = Return (fail_response msg) ->
  (exists sid w1 resp sb2 logs sb3,
     _ensure_session uuid4_at name w = (Return sid, w1)
     /\ execute_session_command sid
          (mk_req
             ("cd " ++ effective_cwd (workspace_path w) folder ++ " && " ++ cmd)
             false (effective_cwd (workspace_path w) folder))
          timeout (sandbox w1)
        = (Return resp, sb2)
     /\ get_session_command_logs sid (cmd_id resp) sb2 = (Return logs, sb3)
     /\ exit_code resp <> 0%Z
     /\ msg = "Command failed with exit code "
              ++ PyStr.of_int (exit_code resp)
              ++ (if PyStr.truthy logs then ": " ++ logs else "")
     /\ calls (snd (execute_command uuid4_at cmd folder name timeout w))
        = (calls w1
           ++ [ExecuteSessionCommand sid
                 (mk_req
                    ("cd " ++ effective_cwd (workspace_path w) folder
                     ++ " && " ++ cmd)
                    false (effective_cwd (workspace_path w) folder))
                 timeout true;
               GetSessionCommandLogs sid (cmd_id resp) true])%list)
  \/ (exists e log c,
        is_Exception e = true
        /\ msg = "Error executing command: " ++ exn_str e
        /\ calls (snd (execute_command uuid4_at cmd folder name timeout w))
           = (calls w ++ log ++ [c])%list
        /\ call_returned c = false
        /\ ((exists w1, _ensure_session uuid4_at name w = (Raise e, w1))
            \/ (exists sid w1 sb2,
                  _ensure_session uuid4_at name w = (Return sid, w1)
                  /\ execute_session_command sid
                       (mk_req
                          ("cd " ++ effective_cwd (workspace_path w) folder
                           ++ " && " ++ cmd)
                          false (effective_cwd (workspace_path w) folder))
                       timeout (sandbox w1)
                     = (Raise e, sb2))
            \/ (exists sid w1 resp sb2 sb3,
                  _ensure_session uuid4_at name w = (Return sid, w1)
                  /\ execute_session_command sid
                       (mk_req
                          ("cd " ++ effective_cwd (workspace_path w) folder
                           ++ " && " ++ cmd)
                          false (effective_cwd (workspace_path w) folder))
                       timeout (sandbox w1)
                     = (Return resp, sb2)
                  /\ get_session_command_logs sid (cmd_id resp) sb2
                     = (Raise e, sb3)))).
Proof.
  assert (H : forall e, handled e = Return (fail_response msg) ->
                        is_Exception e = true
                        /\ msg = "Error executing command: " ++ exn_str e).
  { intros e. unfold handled. destruct (is_Exception e); [|discriminate].
    intros Q. injection Q as <-. split; reflexivity. }
  rewrite !execute_command_run.
  destruct (ensure_frame uuid4_at name w) as (_ & log1 & C1 & _).
  pose proof (ensure_step uuid4_at name w) as [P _].
  destruct (_ensure_session uuid4_at name w) as [[sid|e] w1] eqn:E;
    cbn [snd] in C1, P.
  - cbv zeta. rewrite P.
    destruct (execute_session_command _ _ _ _) as [[resp|e] sb2] eqn:X;
      [destruct (get_session_command_logs _ _ _) as [[logs|e] sb3] eqn:L|];
      cbn [fst snd calls].
    + destruct (Z.eqb_spec (exit_code resp) 0) as [Z0|NZ]; [discriminate|].
      intros Q. injection Q as <-. left.
      exists sid, w1, resp, sb2, logs, sb3.
      repeat split; try assumption; reflexivity.
    + intros Q. destruct (H e Q) as [B M]. right.
      eexists e, (log1 ++ [_])%list, _.
      split; [exact B | split; [exact M|]].
      split; [rewrite C1, <- !app_assoc; reflexivity|].
      split; [reflexivity|].
      right; right. exists sid, w1, resp, sb2, sb3. repeat split; assumption.
    + intros Q. destruct (H e Q) as [B M]. right.
      eexists e, log1, _.
      split; [exact B | split; [exact M|]].
      split; [rewrite C1, <- !app_assoc; reflexivity|].
      split; [reflexivity|].
      right; left. exists sid, w1, sb2. split; [reflexivity | exact X].
  - cbn [fst snd]. intros Q. destruct (H e Q) as [B M]. right.
    destruct (ensure_raise_log _ _ E) as (c & C & R).
    exists e, [], c.
    split; [exact B | split; [exact M | split; [exact C | split; [exact R|]]]].
    left. now exists w1.
Qed.

End Outcomes.

Lemma execute_command_call_sequence_witness :
  exists req,
    command req = "cd /workspace && exit 3"
    /\ calls (snd (execute_command (process := scripted (answering 3 "")) ids
                     "exit 3" None "s1" 60 (init [])))
       = [CreateSession "id-0" true;
          ExecuteSessionCommand "id-0" req 60 true;
          GetSessionCommandLogs "id-0" "cmd-1" true].
Proof.
  destruct (@execute_command_call_sequence _ (scripted (answering 3 "")) ids
              "exit 3" None "s1" 60 (init []) with_s1 "id-0")
    as (req & Q & C); [reflexivity|].
  exists req. split; [exact Q | exact C].
Defined.

Lemma failure_envelope_kinds_witness :
  exists resp logs,
    on_execute (answering 3 "boom") "id-0"
      (mk_req "cd /workspace && exit 3" false "/workspace") 60
    = Return resp
    /\ on_logs (answering 3 "boom") "id-0" (cmd_id resp) = Return logs
    /\ exit_code resp <> 0%Z
    /\ "Command failed with exit code 3: boom"
       = "Command failed with exit code " ++ PyStr.of_int (exit_code resp)
         ++ (if PyStr.truthy logs then ": " ++ logs else "").
Proof.
  destruct (@failure_envelope_kinds _ (scripted (answering 3 "boom")) ids
              "exit 3" None "s1" 60 (init [])
              "Command failed with exit code 3: boom")
    as [(sid & w1 & resp & sb2 & logs & sb3 & E & X & L & NZ & M & _)
       |(e & log & c & _ & M & _)];
    [reflexivity | | discriminate].
  exists resp, logs. injection E as <- <-.
  simpl in X, L. injection X as X. injection L as L.
  subst resp logs. repeat split; assumption.
Defined.

(** ** Interrupts, on a run *)

(** A [KeyboardInterrupt] raised while the command is submitted is not
    caught by [execute_command]: it reaches the caller, and no log is asked
    for. *)
Example interrupt_escapes_execute :
  exists w',
    execute_command (process := scripted interrupted_execute) ids
      "sleep 60" None "s1" 60 with_s1
    = (Raise KeyboardInterrupt, w')
    /\ calls w'
       = [CreateSession "id-0" true;
          ExecuteSessionCommand "id-0"
            (mk_req "cd /workspace && sleep 60" false "/workspace") 60 false].
Proof. eexists; split; reflexivity. Qed.

(** A [KeyboardInterrupt] raised by the first deletion stops [cleanup]: the
    second session is never asked to be deleted and both stay registered. *)
Example interrupt_stops_cleanup :
  exists w',
    cleanup (process := scripted interrupted_delete) with_s1_s2
    = (Raise KeyboardInterrupt, w')
    /\ _sessions w' = [("s1", "id-0"); ("s2", "id-1")]
    /\ calls w'
       = [CreateSession "id-0" true; CreateSession "id-1" true;
          DeleteSession "id-0" false]
    /\ stdout w' = [].
Proof. eexists; repeat split. Qed.
